(** * JoyPanel: the keyboard / gamepad / replay joystick panel

    A shallow embedding of [src/JoyPanel.tsx].  The React component is
    modelled as a state machine: the [useState] cells form the record
    [Panel], every event handler is a state update, and the [useEffect]
    blocks are run after an update when one of their dependencies changed,
    in the order in which the source declares them.

    Numbers.  Every number the keyboard path computes is one of the
    integers 0, 1, -1 or a sum of such; these are exact in JavaScript
    doubles, so they are modelled by [Z].  (The product [-1 * 0] is the
    double [-0], but it is only ever added to an array cell that was
    pushed as [+0] or already holds a sum, and [+0 + -0 = +0]; the frame
    never shows a negative zero.)  Values of replayed and gamepad frames
    are only copied or negated. *)

From stdpp Require Import base tactics option list strings.
From Stdlib Require Import ZArith Lia.

Open Scope Z_scope.

(** ** JavaScript [Map]: insertion ordered, unique keys *)

Module JsMap.
Section Ops.
Context {V : Type}.

(** The entries in insertion order, which is the order of [forEach]. *)
Definition t := list (string * V).

Fixpoint get (k : string) (m : t) : option V :=
  match m with
  | [] => None
  | (k', v) :: m' => if String.eqb k k' then Some v else get k m'
  end.

Definition has (k : string) (m : t) : bool :=
  match get k m with Some _ => true | None => false end.

(** [Map.prototype.set]: an existing key keeps its position. *)
Fixpoint set (k : string) (v : V) (m : t) : t :=
  match m with
  | [] => [(k, v)]
  | (k', v') :: m' =>
      if String.eqb k k' then (k', v) :: m' else (k', v') :: set k v m'
  end.

Definition values (m : t) : list V := m.*2.
Definition keys (m : t) : list string := m.*1.
End Ops.
Arguments t : clear implicits.
End JsMap.

(** ** Data model *)

(** [type KbMap]. *)
Record KbMap := mkKbMap {
  button : Z;
  axis : Z;
  direction : Z;
  value : Z
}.

(** One value of [components/kbmapping1.json].  The file is not part of
    the sources at hand; its entries are a parameter of the model, given
    in the order of [Object.entries]. *)
Record KbDef := mkKbDef {
  def_button : Z;
  def_axis : Z;
  def_direction : string
}.

Record Time := mkTime { sec : Z; nsec : Z }.

Record Header := mkHeader { stamp : Time; frame_id : string }.

(** [types.Joy] *)
Record Joy := mkJoy {
  header : Header;
  axes : list Z;
  buttons : list Z
}.

(** How a JavaScript call ends.  No statement of the panel throws; the
    error below is the one the specification names for a malformed
    mapping table. *)
Inductive Exn := ConfigurationError.

Inductive Completion (A : Type) :=
| Normal (a : A)
| Throw (e : Exn).
Arguments Normal {A} a.
Arguments Throw {A} e.

(** ** The key table *)

(** The object literal [k] built for one entry of the mapping. *)
Definition kbMapOfDef (d : KbDef) : KbMap :=
  {| button := def_button d;
     axis := def_axis d;
     direction := if String.eqb (def_direction d) "+" then 1 else 0;
     value := 0 |}.

(** The body of the [for ... of Object.entries(kbmapping1)] loop. *)
Definition initLoop (keyMap : JsMap.t KbMap) (kv : string * KbDef) : JsMap.t KbMap :=
  JsMap.set kv.1 (kbMapOfDef kv.2) keyMap.

(** The lazy initializer of the [trackedKeys] state cell. *)
Definition trackedKeysInit (kbmapping1 : list (string * KbDef))
  : Completion (JsMap.t KbMap) :=
  Normal (foldl initLoop [] kbmapping1).

(** [k.value = v] on the object stored under the key.  The copy
    [new Map(oldTrackedKeys)] shares its [KbMap] objects with the old map,
    which the panel drops when the updater returns; the model keeps the
    new map only. *)
Definition setValue (v : Z) (k : KbMap) : KbMap :=
  {| button := button k; axis := axis k; direction := direction k; value := v |}.

(** The updater passed to [setTrackedKeys] by [handleKeyDown] ([v = 1])
    and by [handleKeyUp] ([v = 0]).  The boolean tells whether a new map
    object is returned, which is what React compares. *)
Definition keyUpdater (v : Z) (key : string)
    (oldTrackedKeys : option (JsMap.t KbMap)) : option (JsMap.t KbMap) * bool :=
  match oldTrackedKeys with
  | Some old =>
      if JsMap.has key old then
        let newKeys := old in
        match JsMap.get key newKeys with
        | Some k => (Some (JsMap.set key (setValue v k) newKeys), true)
        | None => (Some newKeys, true)
        end
      else (oldTrackedKeys, false)
  | None => (oldTrackedKeys, false)
  end.

Definition handleKeyDown := keyUpdater 1.
Definition handleKeyUp := keyUpdater 0.

(** ** The keyboard frame builder *)

(** [while (arr.length <= i) arr.push(0)], the number of iterations
    being the distance to [i]. *)
Fixpoint pushZeros (n : nat) (arr : list Z) : list Z :=
  match n with
  | O => arr
  | S n' => pushZeros n' (arr ++ [0])
  end.

Definition fill (arr : list Z) (i : Z) : list Z :=
  pushZeros (Z.to_nat (i + 1) - length arr) arr.

(** The sign given to a held key. *)
Definition polarity (k : KbMap) : Z := if 0 <? direction k then 1 else -1.

(** The callback of [trackedKeys?.forEach].  Both array writes are in
    range, since the loop before them extends the array past the index
    (lemma [fill_lt]); a JavaScript write out of range would extend the
    array and leave holes. *)
Definition kbStep (acc : list Z * list Z) (k : KbMap) : list Z * list Z :=
  let '(axes, buttons) := acc in
  if 0 <=? button k then
    let buttons := fill buttons (button k) in
    (axes, <[Z.to_nat (button k) := value k]> buttons)
  else if 0 <=? axis k then
    let axes := fill axes (axis k) in
    (alter (fun a => a + polarity k * value k) (Z.to_nat (axis k)) axes, buttons)
  else (axes, buttons).

Definition kbArrays (trackedKeys : option (JsMap.t KbMap)) : list Z * list Z :=
  match trackedKeys with
  | Some m => foldl kbStep ([], []) (JsMap.values m)
  | None => ([], [])
  end.

Definition kbFrame (now : Time) (publishFrameId : string)
    (trackedKeys : option (JsMap.t KbMap)) : Joy :=
  let '(axes, buttons) := kbArrays trackedKeys in
  {| header := {| frame_id := publishFrameId; stamp := now |};
     axes := axes;
     buttons := buttons |}.

(** ** The panel *)

(** [config.dataSource] *)
Inductive DataSource := SubJoyTopic | GamepadSource | KeyboardSource | InteractiveSource.

Definition DataSource_eqb (a b : DataSource) : bool :=
  match a, b with
  | SubJoyTopic, SubJoyTopic | GamepadSource, GamepadSource
  | KeyboardSource, KeyboardSource | InteractiveSource, InteractiveSource => true
  | _, _ => false
  end.

(** The fields of [panelSettings.Config] that the effects of the panel
    read; the display fields only choose what is drawn. *)
Record Config := mkConfig {
  subJoyTopic : string;
  pubJoyTopic : string;
  publishMode : bool;
  publishFrameId : string;
  dataSource : DataSource;
  gamepadId : Z
}.

Record PartialConfig := mkPartialConfig {
  p_subJoyTopic : option string;
  p_pubJoyTopic : option string;
  p_publishMode : option bool;
  p_publishFrameId : option string;
  p_dataSource : option DataSource;
  p_gamepadId : option Z
}.

(** The initializer of the [config] cell: every [??=] default. *)
Definition initConfig (partialConfig : PartialConfig) : Config :=
  {| subJoyTopic := default "/joy" (p_subJoyTopic partialConfig);
     pubJoyTopic := default "/joy" (p_pubJoyTopic partialConfig);
     publishMode := default false (p_publishMode partialConfig);
     publishFrameId := default "" (p_publishFrameId partialConfig);
     dataSource := default SubJoyTopic (p_dataSource partialConfig);
     gamepadId := default 0 (p_gamepadId partialConfig) |}.

(** The browser's [Gamepad]: its index, axes and [pressed] flags. *)
Record Gamepad := mkGamepad {
  index : Z;
  gp_axes : list Z;
  gp_buttons : list bool
}.

(** The calls made on [context] that concern topics (the host is taken
    to offer the optional methods). *)
Inductive Call :=
| Subscribe (topics : list string)
| UnsubscribeAll
| Advertise (topic schema : string)
| Unadvertise (topic : string)
| Publish (topic : string) (msg : option Joy).

(** The [useState] cells that the effects on topics and frames read.
    The cells [topics] and [renderDone] only feed the settings editor and
    the host's render callback. *)
Record Panel := mkPanel {
  messages : option (list Joy);
  joy : option Joy;
  pubTopic : option string;
  kbEnabled : bool;
  trackedKeys : option (JsMap.t KbMap);
  config : Config
}.

(** Which cells hold a new object (or a different primitive) after an
    update: the comparison React makes on effect dependencies. *)
Record Changed := mkChanged {
  ch_messages : bool;
  ch_joy : bool;
  ch_pubTopic : bool;
  ch_kbEnabled : bool;
  ch_trackedKeys : bool
}.

Definition unchanged : Changed := mkChanged false false false false false.

Definition string_neqb (a b : string) : bool := negb (String.eqb a b).

Definition opt_string_neqb (a b : option string) : bool :=
  match a, b with
  | Some x, Some y => string_neqb x y
  | None, None => false
  | _, _ => true
  end.

(** JavaScript truthiness of [string | undefined]. *)
Definition truthy (s : option string) : bool :=
  match s with
  | Some x => string_neqb x ""
  | None => false
  end.

(** *** The effects, in the order of the source *)

(** Effect on [config.subJoyTopic, config.dataSource]. *)
Definition effSubscribe (c : Config) : list Call :=
  if DataSource_eqb (dataSource c) SubJoyTopic
  then [Subscribe [subJoyTopic c]]
  else [UnsubscribeAll].

(** Effect on [messages, config.publishFrameId]: the argument of
    [setJoy], when it is called. *)
Definition effReplay (p : Panel) : option Joy :=
  match messages p with
  | Some msgs =>
      match last msgs with
      | Some latestJoy =>
          Some {| header := {| stamp := stamp (header latestJoy);
                               frame_id := publishFrameId (config p) |};
                  axes := axes latestJoy;
                  buttons := buttons latestJoy |}
      | None => None
      end
  | None => None
  end.

(** Effect on [config.dataSource, trackedKeys, config.publishFrameId,
    kbEnabled]: the argument of [setJoy], when it is called. *)
Definition effKeyboard (now : Time) (p : Panel) : option Joy :=
  if negb (DataSource_eqb (dataSource (config p)) KeyboardSource) then None
  else if negb (kbEnabled p) then None
  else Some (kbFrame now (publishFrameId (config p)) (trackedKeys p)).

(** The updater given to [setPubTopic], with the calls it makes. *)
Definition pubTopicUpdater (c : Config) (oldTopic : option string)
  : option string * list Call :=
  ((Some (pubJoyTopic c)),
   (if truthy oldTopic
    then match oldTopic with Some t => [Unadvertise t] | None => [] end
    else [])
   ++ [Advertise (pubJoyTopic c) "sensor_msgs/Joy"]).

(** Effect on [config.pubJoyTopic, config.publishMode]. *)
Definition effAdvertise (p : Panel) : option string * list Call :=
  if publishMode (config p) then pubTopicUpdater (config p) (pubTopic p)
  else (pubTopic p, []).

(** Effect on [config.pubJoyTopic, config.publishMode, joy, pubTopic]. *)
Definition effPublish (p : Panel) : list Call :=
  if negb (publishMode (config p)) then []
  else
    match pubTopic p with
    | Some t =>
        if truthy (pubTopic p) && String.eqb t (pubJoyTopic (config p))
        then [Publish t (joy p)]
        else []
    | None => []
    end.

Definition setJoy (j : option Joy) (p : Panel) : Panel :=
  match j with
  | Some j' =>
      {| messages := messages p; joy := Some j'; pubTopic := pubTopic p;
         kbEnabled := kbEnabled p; trackedKeys := trackedKeys p;
         config := config p |}
  | None => p
  end.

Definition setPubTopic (t : option string) (p : Panel) : Panel :=
  {| messages := messages p; joy := joy p; pubTopic := t;
     kbEnabled := kbEnabled p; trackedKeys := trackedKeys p;
     config := config p |}.

(** The dependency arrays: whether a dependency of the effect differs
    from the previous render.  [old] is the configuration of the previous
    render, [c] the one of this render, [ch] the cells that changed. *)
Definition depsSubscribe (old c : Config) : bool :=
  string_neqb (subJoyTopic old) (subJoyTopic c)
  || negb (DataSource_eqb (dataSource old) (dataSource c)).

Definition depsReplay (old c : Config) (ch : Changed) : bool :=
  ch_messages ch || string_neqb (publishFrameId old) (publishFrameId c).

Definition depsKeyboard (old c : Config) (ch : Changed) : bool :=
  negb (DataSource_eqb (dataSource old) (dataSource c))
  || ch_trackedKeys ch
  || string_neqb (publishFrameId old) (publishFrameId c)
  || ch_kbEnabled ch.

Definition depsAdvertise (old c : Config) : bool :=
  string_neqb (pubJoyTopic old) (pubJoyTopic c)
  || negb (Bool.eqb (publishMode old) (publishMode c)).

Definition depsPublish (old c : Config) (ch : Changed) : bool :=
  string_neqb (pubJoyTopic old) (pubJoyTopic c)
  || negb (Bool.eqb (publishMode old) (publishMode c))
  || ch_joy ch || ch_pubTopic ch.

(** What [joy] holds after [setJoy] was called with [j1] and then with
    [j2] in one commit (a call not made is [None]): the last call wins. *)
Definition lastJoy (j1 j2 : option Joy) : option Joy :=
  match j2 with
  | Some _ => j2
  | None => j1
  end.

(** One commit.  The effects whose dependencies changed (all of them
    when mounting) run in source order on the cells [p] of this render.
    The state they set ([joy], [pubTopic]) makes a second render, in which
    only the publish effect can have a changed dependency.  The updater
    given to [setPubTopic] is queued by its effect and run by React when
    it renders again: its calls come after the first run of the publish
    effect and before the second. *)
Definition commit (now : Time) (mounting : bool) (old : Config)
    (ch : Changed) (p : Panel) : Panel * list Call :=
  let c := config p in
  let calls1 :=
    if mounting || depsSubscribe old c then effSubscribe c else [] in
  let j1 :=
    if mounting || depsReplay old c ch then effReplay p else None in
  let j2 :=
    if mounting || depsKeyboard old c ch then effKeyboard now p else None in
  let adv :=
    if mounting || depsAdvertise old c then effAdvertise p else (pubTopic p, []) in
  let calls4 :=
    if mounting || depsPublish old c ch then effPublish p else [] in
  let p' := setPubTopic adv.1 (setJoy (lastJoy j1 j2) p) in
  let calls5 :=
    if bool_decide (is_Some (lastJoy j1 j2)) || opt_string_neqb (pubTopic p) adv.1
    then effPublish p' else [] in
  (p', calls1 ++ calls4 ++ adv.2 ++ calls5).

(** *** Events *)

Inductive Event :=
| Render (currentFrame : option (list Joy))
| ConfigChange (c : Config)
| GamepadUpdate (gp : Gamepad)
| KeyDown (key : string)
| KeyUp (key : string)
| KbSwitch (checked : bool)
| InteractiveChange (interactiveJoy : Joy).

Definition withMessages (m : option (list Joy)) (p : Panel) : Panel :=
  {| messages := m; joy := joy p; pubTopic := pubTopic p;
     kbEnabled := kbEnabled p; trackedKeys := trackedKeys p;
     config := config p |}.

Definition withConfig (c : Config) (p : Panel) : Panel :=
  {| messages := messages p; joy := joy p; pubTopic := pubTopic p;
     kbEnabled := kbEnabled p; trackedKeys := trackedKeys p;
     config := c |}.

Definition withKbEnabled (b : bool) (p : Panel) : Panel :=
  {| messages := messages p; joy := joy p; pubTopic := pubTopic p;
     kbEnabled := b; trackedKeys := trackedKeys p;
     config := config p |}.

Definition withTrackedKeys (t : option (JsMap.t KbMap)) (p : Panel) : Panel :=
  {| messages := messages p; joy := joy p; pubTopic := pubTopic p;
     kbEnabled := kbEnabled p; trackedKeys := t;
     config := config p |}.

(** [didUpdate] of [useGamepad]. *)
Definition gamepadJoy (now : Time) (c : Config) (gp : Gamepad) : option Joy :=
  if negb (DataSource_eqb (dataSource c) GamepadSource) then None
  else if negb (gamepadId c =? index gp) then None
  else Some {| header := {| frame_id := publishFrameId c; stamp := now |};
               axes := (fun a => - a) <$> gp_axes gp;
               buttons := (fun pressed : bool => if pressed then 1 else 0)
                            <$> gp_buttons gp |}.

(** [interactiveCb] *)
Definition interactiveJoyOf (now : Time) (c : Config) (interactiveJoy : Joy)
  : option Joy :=
  if negb (DataSource_eqb (dataSource c) InteractiveSource) then None
  else Some {| header := {| frame_id := publishFrameId c; stamp := now |};
               axes := axes interactiveJoy;
               buttons := buttons interactiveJoy |}.

Definition joySet (j : option Joy) : Changed :=
  mkChanged false (bool_decide (is_Some j)) false false false.

(** The handler of an event followed by the commit it causes.  A frame
    delivered by the host is a new array; [setKbEnabled] with the value
    already held and a key updater that returns the old map change
    nothing, and then no effect runs. *)
Definition step (now : Time) (ev : Event) (p : Panel) : Panel * list Call :=
  let old := config p in
  match ev with
  | Render currentFrame =>
      let ch := mkChanged
                  (match currentFrame with
                   | Some _ => true
                   | None => bool_decide (is_Some (messages p))
                   end) false false false false in
      commit now false old ch (withMessages currentFrame p)
  | ConfigChange c =>
      commit now false old unchanged (withConfig c p)
  | GamepadUpdate gp =>
      let j := gamepadJoy now old gp in
      commit now false old (joySet j) (setJoy j p)
  | KeyDown key =>
      let '(t, fresh) := handleKeyDown key (trackedKeys p) in
      commit now false old (mkChanged false false false false fresh)
        (withTrackedKeys t p)
  | KeyUp key =>
      let '(t, fresh) := handleKeyUp key (trackedKeys p) in
      commit now false old (mkChanged false false false false fresh)
        (withTrackedKeys t p)
  | KbSwitch checked =>
      commit now false old
        (mkChanged false false false (negb (Bool.eqb (kbEnabled p) checked)) false)
        (withKbEnabled checked p)
  | InteractiveChange interactiveJoy =>
      let j := interactiveJoyOf now old interactiveJoy in
      commit now false old (joySet j) (setJoy j p)
  end.

(** The first render of [JoyPanel] and its commit, in which every effect
    runs. *)
Definition mount (now : Time) (kbmapping1 : list (string * KbDef))
    (initialState : PartialConfig) : Completion (Panel * list Call) :=
  match trackedKeysInit kbmapping1 with
  | Normal keyMap =>
      let c := initConfig initialState in
      Normal (commit now true c unchanged
                {| messages := None; joy := None; pubTopic := None;
                   kbEnabled := true; trackedKeys := Some keyMap;
                   config := c |})
  | Throw e => Throw e
  end.

(** A run of the panel: the events in arrival order, each with the clock
    reading its handler and effects see. *)
Fixpoint run (evs : list (Time * Event)) (p : Panel) : Panel * list Call :=
  match evs with
  | [] => (p, [])
  | (now, ev) :: evs' =>
      let '(p1, calls1) := step now ev p in
      let '(p2, calls2) := run evs' p1 in
      (p2, calls1 ++ calls2)
  end.

(** The states the panel can be in. *)
Inductive reachable (kbmapping1 : list (string * KbDef)) : Panel -> Prop :=
| reach_mount now initialState p calls :
    mount now kbmapping1 initialState = Normal (p, calls) ->
    reachable kbmapping1 p
| reach_step now ev p :
    reachable kbmapping1 p ->
    reachable kbmapping1 (step now ev p).1.

(** ** Vocabulary of the statements *)

(** The two defects of a mapping entry that the specification names: a
    key bound to a button and to an axis at once, and a key whose target
    index is negative (neither index names a target). *)
Definition mapsToBoth (d : KbDef) : bool :=
  (0 <=? def_button d) && (0 <=? def_axis d).

Definition negativeTarget (d : KbDef) : bool :=
  (def_button d <? 0) && (def_axis d <? 0).

Definition malformed (kbmapping1 : list (string * KbDef)) : bool :=
  existsb (fun kv => mapsToBoth kv.2 || negativeTarget kv.2) kbmapping1.

(** A press state. *)
Definition binary (k : KbMap) : Prop := value k = 0 \/ value k = 1.

(** The cell [i] of an array, read as 0 past its end. *)
Definition get0 (arr : list Z) (i : nat) : Z := default 0 (arr !! i).

(** The target of an entry, as the branches of [kbStep] decide it: a
    button when the button index is not negative, else an axis when the
    axis index is not negative, else nothing. *)
Inductive TargetKind := Axis | Button.

Definition targetKind (k : KbMap) : option TargetKind :=
  if 0 <=? button k then Some Button
  else if 0 <=? axis k then Some Axis
  else None.

Definition isButton (k : KbMap) : bool :=
  match targetKind k with Some Button => true | _ => false end.

Definition isAxis (k : KbMap) : bool :=
  match targetKind k with Some Axis => true | _ => false end.

Definition onButton (i : nat) (k : KbMap) : bool :=
  isButton k && (Z.to_nat (button k) =? i)%nat.

Definition onAxis (i : nat) (k : KbMap) : bool :=
  isAxis k && (Z.to_nat (axis k) =? i)%nat.

(** What the entries bound to axis [i] add up to. *)
Definition axisSum (i : nat) (ks : list KbMap) : Z :=
  foldr (fun k s => (if onAxis i k then polarity k * value k else 0) + s) 0 ks.

(** The press state of the last entry bound to button [i], if any. *)
Fixpoint lastButton (i : nat) (ks : list KbMap) : option Z :=
  match ks with
  | [] => None
  | k :: ks' =>
      match lastButton i ks' with
      | Some v => Some v
      | None => if onButton i k then Some (value k) else None
      end
  end.

(** The advertise and unadvertise calls of a trace. *)
Definition isAdvCall (c : Call) : bool :=
  match c with
  | Advertise _ _ | Unadvertise _ => true
  | _ => false
  end.

Definition advCalls (calls : list Call) : list Call := filter isAdvCall calls.

(** The table with every key released. *)
Definition released (t : JsMap.t KbMap) : JsMap.t KbMap :=
  (fun kv => (kv.1, setValue 0 kv.2)) <$> t.

(** The table the initializer builds when no key occurs twice. *)
Definition tableOfDef (kbmapping1 : list (string * KbDef)) : JsMap.t KbMap :=
  (fun kv => (kv.1, kbMapOfDef kv.2)) <$> kbmapping1.

(** The subscription calls and the publish calls of a trace. *)
Definition isSubCall (c : Call) : bool :=
  match c with
  | Subscribe _ | UnsubscribeAll => true
  | _ => false
  end.

Definition subCalls (calls : list Call) : list Call := filter isSubCall calls.

Definition isPublishCall (c : Call) : bool :=
  match c with
  | Publish _ _ => true
  | _ => false
  end.

Definition publishCalls (calls : list Call) : list Call :=
  filter isPublishCall calls.

(** The frame the replay effect makes of a message. *)
Definition restamped (publishFrameId : string) (m : Joy) : Joy :=
  {| header := {| stamp := stamp (header m); frame_id := publishFrameId |};
     axes := axes m;
     buttons := buttons m |}.

(** * Properties *)

(** ** The map operations *)

Section JsMapFacts.
Context {V : Type}.
Implicit Types (m : JsMap.t V) (k : string) (v : V).

Lemma get_set_same k v m : JsMap.get k (JsMap.set k v m) = Some v.
Proof.
  induction m as [|[k' v'] m IH]; simpl.
  - by rewrite String.eqb_refl.
  - destruct (String.eqb k k') eqn:E; simpl; rewrite E; [done | exact IH].
Qed.

Lemma get_set_other k k' v m :
  k ≠ k' -> JsMap.get k' (JsMap.set k v m) = JsMap.get k' m.
Proof.
  intros Hne. induction m as [|[k0 v0] m IH]; simpl.
  - destruct (String.eqb k' k) eqn:E; [|done].
    apply String.eqb_eq in E. congruence.
  - destruct (String.eqb k k0) eqn:E; simpl.
    + apply String.eqb_eq in E. subst k0.
      destruct (String.eqb k' k) eqn:E'; [|done].
      apply String.eqb_eq in E'. congruence.
    + by rewrite IH.
Qed.

Lemma has_get k m : JsMap.has k m = true <-> is_Some (JsMap.get k m).
Proof.
  unfold JsMap.has. destruct (JsMap.get k m); split; intros H;
    try done; by eauto.
Qed.

Lemma has_false_get k m : JsMap.has k m = false <-> JsMap.get k m = None.
Proof. unfold JsMap.has. by destruct (JsMap.get k m). Qed.

Lemma get_Some_elem k v m : JsMap.get k m = Some v -> (k, v) ∈ m.
Proof.
  induction m as [|[k' v'] m IH]; simpl; [done|].
  destruct (String.eqb k k') eqn:E.
  - apply String.eqb_eq in E. intros [= ->]. subst. left.
  - intros H. right. by apply IH.
Qed.

Lemma has_keys k m : JsMap.has k m = true <-> k ∈ JsMap.keys m.
Proof.
  unfold JsMap.has, JsMap.keys.
  induction m as [|[k' v'] m IH]; simpl.
  - split; [done | by intros ?%elem_of_nil].
  - destruct (String.eqb k k') eqn:E.
    + apply String.eqb_eq in E. subst. split; [intros _; left | done].
    + rewrite IH. split; [by right|].
      intros [->|H]%elem_of_cons; [|done].
      by rewrite String.eqb_refl in E.
Qed.

(** Writing a key keeps the keys of the map when the key is present
    and appends it otherwise. *)
Lemma keys_set k v m :
  JsMap.keys (JsMap.set k v m) =
  if JsMap.has k m then JsMap.keys m else JsMap.keys m ++ [k].
Proof.
  unfold JsMap.has, JsMap.keys.
  induction m as [|[k' v'] m IH]; [done|].
  cbn [JsMap.set JsMap.get].
  destruct (String.eqb k k') eqn:E; [done|].
  rewrite !fmap_cons, IH. by destruct (JsMap.get k m).
Qed.

(** Every value of the written map is the written one or an old one. *)
Lemma values_set_elem k v m x :
  x ∈ JsMap.values (JsMap.set k v m) -> x = v \/ x ∈ JsMap.values m.
Proof.
  unfold JsMap.values.
  induction m as [|[k' v'] m IH]; simpl.
  - intros [->|H]%elem_of_cons; [by left | by right].
  - destruct (String.eqb k k'); simpl.
    + intros [->|H]%elem_of_cons; [by left | right; by right].
    + intros [->|H]%elem_of_cons; [right; left|].
      destruct (IH H) as [->|H']; [by left | right; by right].
Qed.

Lemma get_Some_values k v m : JsMap.get k m = Some v -> v ∈ JsMap.values m.
Proof.
  intros H%get_Some_elem. unfold JsMap.values.
  apply list_elem_of_fmap. by exists (k, v).
Qed.
End JsMapFacts.

(** ** Construction of the key table *)

Lemma initLoop_keys def : forall acc k,
  k ∈ JsMap.keys (foldl initLoop acc def) <-> k ∈ JsMap.keys acc \/ k ∈ def.*1.
Proof.
  induction def as [|[k0 d0] def IH]; intros acc k; simpl.
  - split; [by left | intros [H|H%elem_of_nil]; done].
  - rewrite IH. unfold initLoop at 1. simpl. rewrite keys_set.
    destruct (JsMap.has k0 acc) eqn:E.
    + apply has_keys in E. rewrite elem_of_cons.
      split; [intros [H|H]; auto | intros [H|[->|H]]; auto].
    + rewrite elem_of_app, list_elem_of_singleton, elem_of_cons. tauto.
Qed.

Lemma initLoop_values def : forall acc,
  Forall (fun e => value e = 0) (JsMap.values acc) ->
  Forall (fun e => value e = 0) (JsMap.values (foldl initLoop acc def)).
Proof.
  induction def as [|[k0 d0] def IH]; intros acc Hacc; simpl; [done|].
  apply IH. apply Forall_forall. intros x Hx.
  apply values_set_elem in Hx as [->|Hx]; [done|].
  by eapply Forall_forall in Hacc.
Qed.

Lemma initLoop_get def : forall acc k e,
  JsMap.get k (foldl initLoop acc def) = Some e ->
  JsMap.get k acc = Some e \/ exists d, (k, d) ∈ def /\ e = kbMapOfDef d.
Proof.
  induction def as [|[k0 d0] def IH]; intros acc k e; simpl; [by left|].
  intros H. apply IH in H as [H|(d & Hd & ->)].
  - unfold initLoop in H. simpl in H.
    destruct (decide (k0 = k)) as [->|Hne].
    + rewrite get_set_same in H. injection H as <-.
      right. exists d0. split; [left | done].
    + rewrite get_set_other in H by done. by left.
  - right. exists d. split; [by right | done].
Qed.

(** ** The key updaters *)

Lemma keyUpdater_tracked v key t k :
  JsMap.get key t = Some k ->
  keyUpdater v key (Some t) = (Some (JsMap.set key (setValue v k) t), true).
Proof. intros H. unfold keyUpdater, JsMap.has. by rewrite H. Qed.

Lemma keyUpdater_untracked v key t :
  JsMap.get key t = None ->
  keyUpdater v key (Some t) = (Some t, false).
Proof. intros H. unfold keyUpdater, JsMap.has. by rewrite H. Qed.

Lemma keyUpdater_binary v key t :
  v = 0 \/ v = 1 ->
  Forall binary (JsMap.values t) ->
  exists t', (keyUpdater v key (Some t)).1 = Some t' /\
             Forall binary (JsMap.values t').
Proof.
  intros Hv Ht. destruct (JsMap.get key t) as [k|] eqn:E.
  - rewrite (keyUpdater_tracked _ _ _ _ E). eexists; split; [done|].
    apply Forall_forall. intros x Hx.
    apply values_set_elem in Hx as [->|Hx]; [exact Hv|].
    by eapply Forall_forall in Ht.
  - rewrite (keyUpdater_untracked _ _ _ E). by exists t.
Qed.

(** ** The dense fill *)

Lemma pushZeros_app n : forall arr, pushZeros n arr = arr ++ replicate n 0.
Proof.
  induction n as [|n IH]; intros arr; simpl.
  - by rewrite app_nil_r.
  - rewrite IH, <- app_assoc. done.
Qed.

Lemma fill_app arr i :
  fill arr i = arr ++ replicate (Z.to_nat (i + 1) - length arr) 0.
Proof. apply pushZeros_app. Qed.

Lemma length_fill arr i :
  length (fill arr i) = (length arr `max` Z.to_nat (i + 1))%nat.
Proof. rewrite fill_app, length_app, length_replicate. lia. Qed.

(** The index written after the loop is inside the array. *)
Lemma fill_lt arr i : 0 <= i -> (Z.to_nat i < length (fill arr i))%nat.
Proof. intros Hi. rewrite length_fill. lia. Qed.

Lemma get0_fill arr i j : get0 (fill arr i) j = get0 arr j.
Proof.
  unfold get0. rewrite fill_app.
  destruct (decide (j < length arr)%nat) as [Hlt|Hge].
  - by rewrite lookup_app_l.
  - rewrite lookup_app_r by lia.
    rewrite (lookup_ge_None_2 arr) by lia.
    destruct (replicate _ _ !! _) eqn:E; [|done].
    by apply lookup_replicate in E as [-> _].
Qed.

Lemma lookup_get0 (arr : list Z) i :
  (i < length arr)%nat -> arr !! i = Some (get0 arr i).
Proof.
  intros H. unfold get0.
  destruct (lookup_lt_is_Some_2 arr i H) as [x ->]. done.
Qed.

Lemma get0_insert arr i j v :
  (i < length arr)%nat ->
  get0 (<[i := v]> arr) j = if (i =? j)%nat then v else get0 arr j.
Proof.
  intros H. unfold get0. destruct (Nat.eqb_spec i j) as [->|Hne].
  - by rewrite list_lookup_insert_eq.
  - by rewrite list_lookup_insert_ne.
Qed.

Lemma get0_alter arr i j (f : Z -> Z) :
  (i < length arr)%nat ->
  get0 (alter f i arr) j = if (i =? j)%nat then f (get0 arr j) else get0 arr j.
Proof.
  intros H. unfold get0. destruct (Nat.eqb_spec i j) as [->|Hne].
  - rewrite list_lookup_alter_eq.
    destruct (lookup_lt_is_Some_2 arr j H) as [x ->]. done.
  - by rewrite list_lookup_alter_ne.
Qed.

(** ** One entry of the table *)

Lemma isButton_spec k : isButton k = true <-> 0 <= button k.
Proof.
  unfold isButton, targetKind.
  destruct (Z.leb_spec 0 (button k)); [done|].
  destruct (0 <=? axis k); split; (done || lia).
Qed.

Lemma isAxis_spec k : isAxis k = true <-> button k < 0 /\ 0 <= axis k.
Proof.
  unfold isAxis, targetKind.
  destruct (Z.leb_spec 0 (button k)); [split; [done | lia]|].
  destruct (Z.leb_spec 0 (axis k)); split; (done || lia).
Qed.

Lemma kbStep_button ax bt k :
  isButton k = true ->
  kbStep (ax, bt) k = (ax, <[Z.to_nat (button k) := value k]> (fill bt (button k))).
Proof.
  intros H%isButton_spec. unfold kbStep.
  destruct (Z.leb_spec 0 (button k)); [done | lia].
Qed.

Lemma kbStep_axis ax bt k :
  isAxis k = true ->
  kbStep (ax, bt) k =
  (alter (fun a => a + polarity k * value k) (Z.to_nat (axis k)) (fill ax (axis k)), bt).
Proof.
  intros [H1 H2]%isAxis_spec. unfold kbStep.
  destruct (Z.leb_spec 0 (button k)); [lia|].
  destruct (Z.leb_spec 0 (axis k)); [done | lia].
Qed.

Lemma kbStep_none ax bt k :
  targetKind k = None -> kbStep (ax, bt) k = (ax, bt).
Proof.
  unfold targetKind, kbStep.
  destruct (0 <=? button k); [done|]. by destruct (0 <=? axis k).
Qed.

(** The three cases of an entry. *)
Lemma targetKind_cases k :
  (isButton k = true /\ isAxis k = false) \/
  (isButton k = false /\ isAxis k = true) \/
  (isButton k = false /\ isAxis k = false /\ targetKind k = None).
Proof.
  unfold isButton, isAxis. destruct (targetKind k) as [[]|]; auto.
Qed.

Lemma kbStep_get0_buttons ax bt k i :
  get0 (kbStep (ax, bt) k).2 i = if onButton i k then value k else get0 bt i.
Proof.
  unfold onButton.
  destruct (targetKind_cases k) as [[Hb _]|[[Hb Ha]|(Hb & Ha & Hn)]]; rewrite Hb.
  - rewrite kbStep_button by done. simpl.
    rewrite get0_insert by (apply fill_lt; by apply isButton_spec).
    destruct (_ =? _)%nat; [done | apply get0_fill].
  - by rewrite kbStep_axis.
  - by rewrite kbStep_none.
Qed.

Lemma kbStep_get0_axes ax bt k i :
  get0 (kbStep (ax, bt) k).1 i =
  get0 ax i + (if onAxis i k then polarity k * value k else 0).
Proof.
  unfold onAxis.
  destruct (targetKind_cases k) as [[Hb Ha]|[[Hb Ha]|(Hb & Ha & Hn)]]; rewrite Ha.
  - rewrite kbStep_button by done. simpl. lia.
  - rewrite kbStep_axis by done. simpl.
    rewrite get0_alter by (apply fill_lt; by apply isAxis_spec).
    destruct (_ =? _)%nat; rewrite get0_fill; lia.
  - rewrite kbStep_none by done. simpl. lia.
Qed.

Lemma kbStep_length_buttons ax bt k :
  length (kbStep (ax, bt) k).2 =
  if isButton k then (length bt `max` S (Z.to_nat (button k)))%nat else length bt.
Proof.
  destruct (targetKind_cases k) as [[Hb _]|[[Hb Ha]|(Hb & Ha & Hn)]]; rewrite Hb.
  - rewrite kbStep_button by done. simpl.
    rewrite length_insert, length_fill. apply isButton_spec in Hb. lia.
  - by rewrite kbStep_axis.
  - by rewrite kbStep_none.
Qed.

Lemma kbStep_length_axes ax bt k :
  length (kbStep (ax, bt) k).1 =
  if isAxis k then (length ax `max` S (Z.to_nat (axis k)))%nat else length ax.
Proof.
  destruct (targetKind_cases k) as [[Hb Ha]|[[Hb Ha]|(Hb & Ha & Hn)]]; rewrite Ha.
  - by rewrite kbStep_button.
  - rewrite kbStep_axis by done. simpl.
    rewrite length_alter, length_fill. apply isAxis_spec in Ha. lia.
  - by rewrite kbStep_none.
Qed.

(** ** The whole fold *)

Arguments kbStep : simpl never.

Lemma fold_get0_buttons ks : forall acc i,
  get0 (foldl kbStep acc ks).2 i = default (get0 acc.2 i) (lastButton i ks).
Proof.
  induction ks as [|k ks IH]; intros [ax bt] i; simpl; [done|].
  rewrite IH. destruct (lastButton i ks); simpl; [done|].
  rewrite kbStep_get0_buttons. by destruct (onButton i k).
Qed.

Lemma fold_get0_axes ks : forall acc i,
  get0 (foldl kbStep acc ks).1 i = get0 acc.1 i + axisSum i ks.
Proof.
  induction ks as [|k ks IH]; intros [ax bt] i; simpl; [lia|].
  rewrite IH, kbStep_get0_axes. lia.
Qed.

Lemma fold_length_buttons ks : forall acc i,
  (i < length (foldl kbStep acc ks).2)%nat <->
  (i < length acc.2)%nat \/
  exists k, k ∈ ks /\ isButton k = true /\ (i <= Z.to_nat (button k))%nat.
Proof.
  induction ks as [|k ks IH]; intros [ax bt] i; simpl.
  - split; [by left | intros [H|(k & Hk%elem_of_nil & _)]; done].
  - rewrite IH, kbStep_length_buttons. split.
    + intros [H|(k' & Hk' & Hb & Hi)].
      * destruct (isButton k) eqn:E; [|by left].
        destruct (decide (i < length bt)%nat); [by left|].
        right. exists k. split; [left|]. split; [done | lia].
      * right. exists k'. split; [by right | done].
    + intros [H|(k' & Hk' & Hb & Hi)].
      * left. destruct (isButton k); lia.
      * apply elem_of_cons in Hk' as [->|Hk'].
        -- left. rewrite Hb. lia.
        -- right. by exists k'.
Qed.

Lemma fold_length_axes ks : forall acc i,
  (i < length (foldl kbStep acc ks).1)%nat <->
  (i < length acc.1)%nat \/
  exists k, k ∈ ks /\ isAxis k = true /\ (i <= Z.to_nat (axis k))%nat.
Proof.
  induction ks as [|k ks IH]; intros [ax bt] i; simpl.
  - split; [by left | intros [H|(k & Hk%elem_of_nil & _)]; done].
  - rewrite IH, kbStep_length_axes. split.
    + intros [H|(k' & Hk' & Hb & Hi)].
      * destruct (isAxis k) eqn:E; [|by left].
        destruct (decide (i < length ax)%nat); [by left|].
        right. exists k. split; [left|]. split; [done | lia].
      * right. exists k'. split; [by right | done].
    + intros [H|(k' & Hk' & Hb & Hi)].
      * left. destruct (isAxis k); lia.
      * apply elem_of_cons in Hk' as [->|Hk'].
        -- left. rewrite Hb. lia.
        -- right. by exists k'.
Qed.

(** The axes never depend on the buttons gathered so far. *)
Lemma kbStep_axes_indep ax bt bt' k :
  (kbStep (ax, bt) k).1 = (kbStep (ax, bt') k).1.
Proof.
  destruct (targetKind_cases k) as [[Hb Ha]|[[Hb Ha]|(Hb & Ha & Hn)]].
  - by rewrite !kbStep_button.
  - by rewrite !kbStep_axis.
  - by rewrite !kbStep_none.
Qed.

Lemma fold_axes_indep ks : forall ax bt bt',
  (foldl kbStep (ax, bt) ks).1 = (foldl kbStep (ax, bt') ks).1.
Proof.
  induction ks as [|k ks IH]; intros ax bt bt'; simpl; [done|].
  pose proof (kbStep_axes_indep ax bt bt' k) as H.
  destruct (kbStep (ax, bt) k) as [a1 b1], (kbStep (ax, bt') k) as [a2 b2].
  simpl in H. subst a2. apply IH.
Qed.

Lemma lastButton_none i ks :
  (forall k, k ∈ ks -> onButton i k = false) -> lastButton i ks = None.
Proof.
  induction ks as [|k ks IH]; intros H; simpl; [done|].
  rewrite IH by (intros k' Hk'; apply H; by right).
  rewrite H; [done | left].
Qed.

Lemma lastButton_zero i ks :
  (forall k, k ∈ ks -> onButton i k = true -> value k = 0) ->
  default 0 (lastButton i ks) = 0.
Proof.
  induction ks as [|k ks IH]; intros H; simpl; [done|].
  assert (default 0 (lastButton i ks) = 0) as IH'
    by (apply IH; intros k' Hk'; apply H; by right).
  destruct (lastButton i ks); [done|].
  destruct (onButton i k) eqn:E; [|done].
  simpl. apply H; [left | done].
Qed.

Lemma axisSum_zero i ks :
  (forall k, k ∈ ks -> onAxis i k = true -> value k = 0) -> axisSum i ks = 0.
Proof.
  induction ks as [|k ks IH]; intros H; simpl; [done|].
  fold (axisSum i ks). rewrite IH by (intros k' Hk'; apply H; by right).
  destruct (onAxis i k) eqn:E; [|done].
  rewrite (H k); [lia | left | done].
Qed.

Lemma axisSum_app i ks1 ks2 :
  axisSum i (ks1 ++ ks2) = axisSum i ks1 + axisSum i ks2.
Proof.
  unfold axisSum. induction ks1 as [|k ks1 IH]; simpl; [done|].
  rewrite IH. lia.
Qed.

Lemma kbFrame_axes now fid t : axes (kbFrame now fid t) = (kbArrays t).1.
Proof. unfold kbFrame. by destruct (kbArrays t). Qed.

Lemma kbFrame_buttons now fid t : buttons (kbFrame now fid t) = (kbArrays t).2.
Proof. unfold kbFrame. by destruct (kbArrays t). Qed.

Lemma kbFrame_header now fid t :
  header (kbFrame now fid t) = {| stamp := now; frame_id := fid |}.
Proof. unfold kbFrame. by destruct (kbArrays t). Qed.

(** ** Sums over a table with unique keys *)

Lemma values_cons {V} (K : string) (e : V) (t : JsMap.t V) :
  JsMap.values ((K, e) :: t) = e :: JsMap.values t.
Proof. done. Qed.

Lemma axisSum_cons i k ks :
  axisSum i (k :: ks) =
  (if onAxis i k then polarity k * value k else 0) + axisSum i ks.
Proof. done. Qed.

Lemma axisSum_unbound i (t : JsMap.t KbMap) :
  (forall K e, (K, e) ∈ t -> onAxis i e = true -> value e = 0) ->
  axisSum i (JsMap.values t) = 0.
Proof.
  intros H. apply axisSum_zero. intros k Hk Hon.
  apply list_elem_of_fmap in Hk as ([K e] & -> & Hin). by eapply H.
Qed.

Lemma get_NoDup_head K e (t : JsMap.t KbMap) K' e' :
  NoDup (JsMap.keys ((K, e) :: t)) -> (K', e') ∈ t -> K' ≠ K.
Proof.
  unfold JsMap.keys. rewrite fmap_cons. intros [Hnin _]%NoDup_cons Hin ->.
  apply Hnin. apply list_elem_of_fmap. by exists (K, e').
Qed.

Lemma axisSum_one i (t : JsMap.t KbMap) K e :
  NoDup (JsMap.keys t) ->
  JsMap.get K t = Some e ->
  (forall K' e', (K', e') ∈ t -> K' ≠ K -> onAxis i e' = true -> value e' = 0) ->
  axisSum i (JsMap.values t) = if onAxis i e then polarity e * value e else 0.
Proof.
  induction t as [|[K0 e0] t IH]; intros Hnd Hget Hoth; [done|].
  simpl in Hget. rewrite values_cons, axisSum_cons.
  destruct (String.eqb K K0) eqn:E.
  - apply String.eqb_eq in E. subst K0. injection Hget as ->.
    rewrite axisSum_unbound; [lia|].
    intros K' e' Hin. apply (Hoth K' e'); [by right|].
    eapply get_NoDup_head; eassumption.
  - assert (K0 ≠ K) as Hne.
    { intros ->. by rewrite String.eqb_refl in E. }
    rewrite IH; try done.
    + destruct (onAxis i e0) eqn:E0; [|lia].
      rewrite (Hoth K0 e0); [lia | left | done | done].
    + unfold JsMap.keys in *. rewrite fmap_cons in Hnd.
      by apply NoDup_cons in Hnd as [_ ?].
    + intros K' e' Hin. apply (Hoth K' e'). by right.
Qed.

Lemma axisSum_two i (t : JsMap.t KbMap) K1 K2 e1 e2 :
  NoDup (JsMap.keys t) -> K1 ≠ K2 ->
  JsMap.get K1 t = Some e1 -> JsMap.get K2 t = Some e2 ->
  (forall K e, (K, e) ∈ t -> K ≠ K1 -> K ≠ K2 -> onAxis i e = true -> value e = 0) ->
  axisSum i (JsMap.values t) =
  (if onAxis i e1 then polarity e1 * value e1 else 0)
  + (if onAxis i e2 then polarity e2 * value e2 else 0).
Proof.
  induction t as [|[K0 e0] t IH]; intros Hnd Hne Hg1 Hg2 Hoth; [done|].
  assert (NoDup (JsMap.keys t)) as Hnd'.
  { unfold JsMap.keys in *. rewrite fmap_cons in Hnd.
    by apply NoDup_cons in Hnd as [_ ?]. }
  simpl in Hg1, Hg2. rewrite values_cons, axisSum_cons.
  destruct (String.eqb K1 K0) eqn:E1; destruct (String.eqb K2 K0) eqn:E2.
  - apply String.eqb_eq in E1, E2. congruence.
  - apply String.eqb_eq in E1. subst K0. injection Hg1 as ->.
    rewrite (axisSum_one i t K2 e2); try done.
    intros K' e' Hin Hne'. apply (Hoth K' e'); [by right | | done].
    eapply get_NoDup_head; eassumption.
  - apply String.eqb_eq in E2. subst K0. injection Hg2 as ->.
    rewrite (axisSum_one i t K1 e1); try done; [lia|].
    intros K' e' Hin Hne'. apply (Hoth K' e'); [by right | done |].
    eapply get_NoDup_head; eassumption.
  - rewrite IH; try done.
    + destruct (onAxis i e0) eqn:E0; [|lia].
      rewrite (Hoth K0 e0); [lia | left | | | done].
      * intros ->. by rewrite String.eqb_refl in E1.
      * intros ->. by rewrite String.eqb_refl in E2.
    + intros K e Hin. apply (Hoth K e). by right.
Qed.

(** The sign the initializer and the builder give together: [+1] for
    the direction ["+"], [-1] for every other string. *)
Lemma polarity_kbMapOfDef d :
  polarity (kbMapOfDef d) = if String.eqb (def_direction d) "+" then 1 else -1.
Proof. unfold polarity, kbMapOfDef. simpl. by destruct (String.eqb _ _). Qed.

Lemma polarity_setValue v k : polarity (setValue v k) = polarity k.
Proof. done. Qed.

(** * The claims about the key table and the frame builder *)

(** C2, as the specification states it, fails: a mapping in which the
    key ["a"] is bound to button 0 and to axis 0 at once, and the key
    ["b"] has no target index that is not negative, is malformed in both
    ways the specification names, and the initializer returns a table
    built from it; nothing is thrown. *)
Lemma C2_malformed_table_is_built :
  let kbmapping1 := [("a", mkKbDef 0 0 "+"); ("b", mkKbDef (-1) (-2) "-")] in
  mapsToBoth (mkKbDef 0 0 "+") = true /\
  negativeTarget (mkKbDef (-1) (-2) "-") = true /\
  malformed kbmapping1 = true /\
  trackedKeysInit kbmapping1 =
    Normal [("a", mkKbMap 0 0 1 0); ("b", mkKbMap (-1) (-2) 0 0)] /\
  trackedKeysInit kbmapping1 <> Throw ConfigurationError.
Proof. repeat split; (reflexivity || discriminate). Qed.

(** C2, amended: the construction of the key table is total and checks
    nothing.  For every mapping definition it returns a table that tracks
    exactly the keys of the definition, every entry released (value 0),
    and every entry carrying the button index, the axis index and the
    parsed direction of a definition of its key as they are, negative or
    both non-negative alike. *)
Theorem C2_table_construction_total (kbmapping1 : list (string * KbDef)) :
  exists t,
    trackedKeysInit kbmapping1 = Normal t /\
    (forall K, JsMap.has K t = true <-> K ∈ kbmapping1.*1) /\
    Forall (fun e => value e = 0) (JsMap.values t) /\
    (forall K e, JsMap.get K t = Some e ->
       exists d, (K, d) ∈ kbmapping1 /\
                 button e = def_button d /\ axis e = def_axis d /\
                 direction e = (if String.eqb (def_direction d) "+" then 1 else 0)
                 /\ value e = 0).
Proof.
  eexists. split; [reflexivity|]. split; [|split].
  - intros K. rewrite has_keys, initLoop_keys. split; [|by right].
    by intros [?%elem_of_nil|?].
  - apply initLoop_values. constructor.
  - intros K e H. apply initLoop_get in H as [H|(d & Hd & ->)]; [done|].
    by exists d.
Qed.

(** C10: an entry whose button index and axis index are both
    non-negative is folded as a button only.  The step writes the press
    state at the button index (after the dense fill) and returns the axes
    it was given; over a whole table, the axes of the frame are those of
    the table without the entry.  The axis branch changes the axes only
    for an entry whose button index is negative. *)
Theorem C10_button_takes_precedence (e : KbMap) :
  0 <= button e -> 0 <= axis e ->
  (forall ax bt,
     kbStep (ax, bt) e =
     (ax, <[Z.to_nat (button e) := value e]> (fill bt (button e)))) /\
  (forall now fid (t1 t2 : JsMap.t KbMap) K,
     axes (kbFrame now fid (Some (t1 ++ (K, e) :: t2))) =
     axes (kbFrame now fid (Some (t1 ++ t2)))) /\
  (forall ax bt (k : KbMap), (kbStep (ax, bt) k).1 <> ax -> button k < 0).
Proof.
  intros Hb Ha.
  assert (isButton e = true) as He by by apply isButton_spec.
  split; [|split].
  - intros ax bt. by apply kbStep_button.
  - intros now fid t1 t2 K. rewrite !kbFrame_axes. simpl.
    unfold JsMap.values. rewrite !fmap_app, fmap_cons, !foldl_app. simpl.
    destruct (foldl kbStep ([], []) t1.*2) as [ax bt].
    rewrite kbStep_button by done. apply fold_axes_indep.
  - intros ax bt k Hne. destruct (Z.leb_spec 0 (button k)) as [H|H]; [|done].
    exfalso. apply Hne. rewrite kbStep_button; [done|]. by apply isButton_spec.
Qed.

Lemma C10_button_takes_precedence_witness :
  kbStep ([5], [0; 0]) (mkKbMap 1 0 1 1) = ([5], [0; 1]) /\
  axes (kbFrame (mkTime 0 0) "" (Some [("q", mkKbMap 1 0 1 1)])) = [].
Proof.
  destruct (C10_button_takes_precedence (mkKbMap 1 0 1 1)) as (H1 & H2 & _);
    [simpl; lia | simpl; lia |].
  split.
  - exact (H1 [5] [0; 0]).
  - exact (H2 (mkTime 0 0) "" [] [] "q").
Defined.

Lemma lastButton_Some i ks v :
  lastButton i ks = Some v ->
  exists e, e ∈ ks /\ onButton i e = true /\ v = value e.
Proof.
  induction ks as [|k ks IH]; simpl; [done|].
  destruct (lastButton i ks) as [w|].
  - intros [= ->]. destruct IH as (e & He & Hon & Hv); [done|].
    exists e. split; [by right | done].
  - destruct (onButton i k) eqn:E; [|done].
    intros [= <-]. exists k. split; [left | done].
Qed.

Lemma lastButton_None i ks k :
  lastButton i ks = None -> k ∈ ks -> onButton i k = false.
Proof.
  induction ks as [|k0 ks IH]; simpl; [by intros _ ?%elem_of_nil|].
  destruct (lastButton i ks) as [w|]; [done|].
  destruct (onButton i k0) eqn:E; [done|].
  intros _ [->|H]%elem_of_cons; [done | by apply IH].
Qed.

(** C4: the arrays of a keyboard-built frame are dense.  The buttons
    array has a cell [i] exactly when some button entry has an index of
    at least [i], so it runs from 0 to the highest button index, and
    likewise the axes array for the axis entries; a cell to which no
    held key is bound (every entry bound to it has value 0) holds 0.  In
    particular, when 3 is the only button index of the table, the
    buttons array has length 4, its cells 0 to 2 hold 0 and cell 3 holds
    the press state of an entry bound to it. *)
Theorem C4_dense_fill (now : Time) (fid : string) (t : JsMap.t KbMap) :
  let f := kbFrame now fid (Some t) in
  (forall i, (i < length (buttons f))%nat <->
     exists e, e ∈ JsMap.values t /\ isButton e = true /\
               (i <= Z.to_nat (button e))%nat) /\
  (forall i, (i < length (axes f))%nat <->
     exists e, e ∈ JsMap.values t /\ isAxis e = true /\
               (i <= Z.to_nat (axis e))%nat) /\
  (forall i, (i < length (buttons f))%nat ->
     (forall e, e ∈ JsMap.values t -> onButton i e = true -> value e = 0) ->
     buttons f !! i = Some 0) /\
  (forall i, (i < length (axes f))%nat ->
     (forall e, e ∈ JsMap.values t -> onAxis i e = true -> value e = 0) ->
     axes f !! i = Some 0) /\
  ((exists e, e ∈ JsMap.values t /\ isButton e = true) ->
   (forall e, e ∈ JsMap.values t -> isButton e = true -> button e = 3) ->
   length (buttons f) = 4%nat /\
   (forall i, (i < 3)%nat -> buttons f !! i = Some 0) /\
   (exists e, e ∈ JsMap.values t /\ button e = 3 /\
              buttons f !! 3%nat = Some (value e))).
Proof.
  intros f. unfold f. rewrite kbFrame_buttons, kbFrame_axes. simpl.
  set (ks := JsMap.values t).
  assert (forall i, (i < length (foldl kbStep ([], []) ks).2)%nat <->
            exists e, e ∈ ks /\ isButton e = true /\
                      (i <= Z.to_nat (button e))%nat) as Hlen.
  { intros i. rewrite fold_length_buttons. simpl. split; [|by right].
    intros [H|H]; [lia | done]. }
  split; [exact Hlen|]. split; [|split; [|split]].
  - intros i. rewrite fold_length_axes. simpl. split; [|by right].
    intros [H|H]; [lia | done].
  - intros i Hi Hz. rewrite lookup_get0 by done. f_equal.
    rewrite fold_get0_buttons. simpl.
    change (get0 [] i) with 0. by apply lastButton_zero.
  - intros i Hi Hz. rewrite lookup_get0 by done. f_equal.
    rewrite fold_get0_axes. simpl.
    change (get0 [] i) with 0. by rewrite axisSum_zero.
  - intros (e & He & Hb) Hall.
    assert (length (foldl kbStep ([], []) ks).2 = 4%nat) as H4.
    { assert (3 < length (foldl kbStep ([], []) ks).2)%nat as Hlt.
      { apply Hlen. exists e. rewrite (Hall e) by done. by repeat split. }
      assert (~ (4 < length (foldl kbStep ([], []) ks).2)%nat) as Hge.
      { intros (e' & He' & Hb' & Hi)%Hlen.
        rewrite (Hall e') in Hi by done. lia. }
      lia. }
    split; [exact H4|]. split.
    + intros i Hi. rewrite lookup_get0 by lia. f_equal.
      rewrite fold_get0_buttons. simpl. change (get0 [] i) with 0.
      rewrite lastButton_none; [done|].
      intros e' He'. unfold onButton.
      destruct (isButton e') eqn:E; [|done].
      rewrite (Hall e') by done. apply Nat.eqb_neq. lia.
    + rewrite lookup_get0 by lia. rewrite fold_get0_buttons. simpl.
      destruct (lastButton 3 ks) as [v|] eqn:El.
      * apply lastButton_Some in El as (e' & He' & Hon & ->).
        exists e'. split; [done|]. split; [|done].
        unfold onButton in Hon. apply andb_true_iff in Hon as [Hb' _].
        by apply Hall.
      * exfalso. pose proof (lastButton_None _ _ _ El He) as Hoff.
        unfold onButton in Hoff. rewrite Hb, (Hall e) in Hoff by done.
        discriminate.
Qed.

(** The frame of a table whose only button index is 3, the key held. *)
Example kbFrame_only_button_3 :
  kbFrame (mkTime 7 0) "base" (Some [("x", mkKbMap 3 (-1) 0 1)]) =
  {| header := {| stamp := mkTime 7 0; frame_id := "base" |};
     axes := [];
     buttons := [0; 0; 0; 1] |}.
Proof. reflexivity. Qed.

(** C5, as the specification states it, fails: the keys ["a"] and ["b"]
    are both bound to button 0, ["a"] is held and ["b"] is not; the
    frame built after the key-down of ["a"] has button 0 released, not
    the OR of the two press states. *)
Lemma C5_later_released_entry_overrides :
  let kbmapping1 := [("a", mkKbDef 0 (-1) "+"); ("b", mkKbDef 0 (-1) "+")] in
  let cfg := mkPartialConfig None None None None (Some KeyboardSource) None in
  exists p calls,
    mount (mkTime 0 0) kbmapping1 cfg = Normal (p, calls) /\
    let p' := (step (mkTime 1 0) (KeyDown "a") p).1 in
    trackedKeys p' =
      Some [("a", mkKbMap 0 (-1) 1 1); ("b", mkKbMap 0 (-1) 1 0)] /\
    (buttons <$> joy p') = Some [0].
Proof. eexists _, _. split; [reflexivity|]. split; reflexivity. Qed.

(** C5, amended: when several entries are bound to the same button
    index, the cell holds the press state of the one that comes last in
    the order of the table, whatever the press states of the earlier
    ones; a later released entry overrides an earlier held one. *)
Theorem C5_last_entry_wins (now : Time) (fid : string)
    (t1 t2 : JsMap.t KbMap) (K : string) (e : KbMap) (i : nat) :
  onButton i e = true ->
  (forall e', e' ∈ JsMap.values t2 -> onButton i e' = false) ->
  buttons (kbFrame now fid (Some (t1 ++ (K, e) :: t2))) !! i = Some (value e).
Proof.
  intros Hon Hlast. rewrite kbFrame_buttons. simpl.
  unfold JsMap.values. rewrite fmap_app, fmap_cons, foldl_app. simpl.
  assert (i < length (foldl kbStep (kbStep (foldl kbStep ([], []) t1.*2) e) t2.*2).2)%nat
    as Hlt.
  { apply fold_length_buttons. left.
    destruct (foldl kbStep ([], []) t1.*2) as [ax bt].
    rewrite kbStep_length_buttons.
    unfold onButton in Hon. apply andb_true_iff in Hon as [-> ->%Nat.eqb_eq]. lia. }
  rewrite lookup_get0 by done. f_equal.
  rewrite fold_get0_buttons, lastButton_none by done. simpl.
  destruct (foldl kbStep ([], []) t1.*2) as [ax bt].
  by rewrite kbStep_get0_buttons, Hon.
Qed.

Lemma C5_last_entry_wins_witness :
  buttons (kbFrame (mkTime 1 0) ""
             (Some ([("a", mkKbMap 0 (-1) 1 1)] ++ ("b", mkKbMap 0 (-1) 1 0) :: [])))
    !! 0%nat = Some 0.
Proof.
  apply (C5_last_entry_wins (mkTime 1 0) "" [("a", mkKbMap 0 (-1) 1 1)] []
           "b" (mkKbMap 0 (-1) 1 0) 0%nat).
  - reflexivity.
  - intros e' He'. simpl in He'. by apply elem_of_nil in He'.
Defined.

(** C3: axis contributions add up with their sign.  In a table with
    unique keys let [K1] and [K2] be bound to axis 0, [K1] with the
    direction the initializer parses from ["+"] (1) and [K2] with the one
    it parses from any other string (0), and let no other key bound to
    axis 0 be held.  Then cell 0 of the axes of the frame is 0 when both
    keys are held, 1 when only [K1] is and -1 when only [K2] is. *)
Theorem C3_additive_axis (now : Time) (fid : string) (t : JsMap.t KbMap)
    (K1 K2 : string) (e1 e2 : KbMap) :
  NoDup (JsMap.keys t) ->
  K1 ≠ K2 ->
  JsMap.get K1 t = Some e1 ->
  JsMap.get K2 t = Some e2 ->
  onAxis 0 e1 = true -> direction e1 = 1 ->
  onAxis 0 e2 = true -> direction e2 = 0 ->
  (forall K e, (K, e) ∈ t -> K ≠ K1 -> K ≠ K2 -> onAxis 0 e = true -> value e = 0) ->
  let a0 := axes (kbFrame now fid (Some t)) !! 0%nat in
  (value e1 = 1 -> value e2 = 1 -> a0 = Some 0) /\
  (value e1 = 1 -> value e2 = 0 -> a0 = Some 1) /\
  (value e1 = 0 -> value e2 = 1 -> a0 = Some (-1)).
Proof.
  intros Hnd Hne Hg1 Hg2 Ha1 Hd1 Ha2 Hd2 Hoth a0.
  assert (a0 = Some (value e1 - value e2)) as ->.
  { unfold a0. rewrite kbFrame_axes. simpl.
    assert (0 < length (foldl kbStep ([], []) (JsMap.values t)).1)%nat as Hlt.
    { apply fold_length_axes. right. exists e1.
      split; [by eapply get_Some_values|].
      unfold onAxis in Ha1. apply andb_true_iff in Ha1 as [-> _].
      split; [done | lia]. }
    rewrite lookup_get0 by done. f_equal.
    rewrite fold_get0_axes. simpl. change (get0 [] 0) with 0.
    rewrite (axisSum_two 0 t K1 K2 e1 e2) by done.
    rewrite Ha1, Ha2. unfold polarity. rewrite Hd1, Hd2. simpl. lia. }
  repeat split; intros -> ->; done.
Qed.

Lemma C3_additive_axis_witness :
  let t v1 v2 := [("d", mkKbMap (-1) 0 1 v1); ("a", mkKbMap (-1) 0 0 v2);
                  ("j", mkKbMap 2 (-1) 0 1)] in
  axes (kbFrame (mkTime 0 0) "" (Some (t 1 1))) !! 0%nat = Some 0 /\
  axes (kbFrame (mkTime 0 0) "" (Some (t 1 0))) !! 0%nat = Some 1 /\
  axes (kbFrame (mkTime 0 0) "" (Some (t 0 1))) !! 0%nat = Some (-1).
Proof.
  intros t.
  assert (forall v1 v2,
            let a0 := axes (kbFrame (mkTime 0 0) "" (Some (t v1 v2))) !! 0%nat in
            (v1 = 1 -> v2 = 1 -> a0 = Some 0) /\
            (v1 = 1 -> v2 = 0 -> a0 = Some 1) /\
            (v1 = 0 -> v2 = 1 -> a0 = Some (-1))) as H.
  { intros v1 v2.
    apply (C3_additive_axis (mkTime 0 0) "" (t v1 v2) "d" "a"
             (mkKbMap (-1) 0 1 v1) (mkKbMap (-1) 0 0 v2)).
    - unfold t, JsMap.keys. simpl.
      apply (bool_decide_unpack (NoDup ["d"; "a"; "j"])). by vm_compute.
    - discriminate.
    - reflexivity.
    - reflexivity.
    - reflexivity.
    - reflexivity.
    - reflexivity.
    - reflexivity.
    - intros K e Hin H1 H2. unfold t in Hin.
      repeat (apply elem_of_cons in Hin as [Hin|Hin];
              [injection Hin as -> ->; try congruence|]).
      + discriminate.
      + by apply elem_of_nil in Hin. }
  split; [|split].
  - by apply (H 1 1).
  - by apply (H 1 0).
  - by apply (H 0 1).
Defined.

(** * The panel as a state machine *)

Lemma string_neqb_refl s : string_neqb s s = false.
Proof. unfold string_neqb. by rewrite String.eqb_refl. Qed.

Lemma string_neqb_ne a b : a ≠ b -> string_neqb a b = true.
Proof.
  intros H. unfold string_neqb. destruct (String.eqb_spec a b); [done | done].
Qed.

Lemma opt_string_neqb_refl t : opt_string_neqb t t = false.
Proof. destruct t; [apply string_neqb_refl | done]. Qed.

Lemma DataSource_eqb_refl d : DataSource_eqb d d = true.
Proof. by destruct d. Qed.

Lemma DataSource_eqb_eq a b : DataSource_eqb a b = true <-> a = b.
Proof. destruct a, b; split; (done || discriminate). Qed.

(** With the configuration untouched, an effect runs only for the cells
    that changed. *)
Lemma deps_same_config c ch :
  depsSubscribe c c = false /\
  depsReplay c c ch = ch_messages ch /\
  depsKeyboard c c ch = ch_trackedKeys ch || ch_kbEnabled ch /\
  depsAdvertise c c = false /\
  depsPublish c c ch = ch_joy ch || ch_pubTopic ch.
Proof.
  unfold depsSubscribe, depsReplay, depsKeyboard, depsAdvertise, depsPublish.
  rewrite !string_neqb_refl, !DataSource_eqb_refl, !Bool.eqb_reflx. simpl.
  repeat split; by rewrite ?orb_false_r.
Qed.

(** A commit writes [joy] and [pubTopic] only. *)
Lemma commit_cells now mounting old ch p :
  let r := (commit now mounting old ch p).1 in
  messages r = messages p /\ kbEnabled r = kbEnabled p /\
  trackedKeys r = trackedKeys p /\ config r = config p.
Proof. unfold commit, setPubTopic, setJoy. simpl. by destruct (lastJoy _ _). Qed.

Lemma commit_joy now mounting old ch p :
  joy (commit now mounting old ch p).1 =
  match lastJoy
          (if mounting || depsReplay old (config p) ch then effReplay p else None)
          (if mounting || depsKeyboard old (config p) ch
           then effKeyboard now p else None) with
  | Some j => Some j
  | None => joy p
  end.
Proof. unfold commit, setPubTopic, setJoy. simpl. by destruct (lastJoy _ _). Qed.

Lemma commit_pubTopic now mounting old ch p :
  pubTopic (commit now mounting old ch p).1 =
  (if mounting || depsAdvertise old (config p)
   then effAdvertise p else (pubTopic p, [])).1.
Proof. done. Qed.

(** A commit in which no dependency changed does nothing. *)
Lemma commit_idle now p : commit now false (config p) unchanged p = (p, []).
Proof.
  unfold commit.
  destruct (deps_same_config (config p) unchanged) as (-> & -> & -> & -> & ->).
  simpl. rewrite opt_string_neqb_refl. by destruct p.
Qed.

(** The key events, unfolded. *)
Lemma step_KeyDown now key p :
  step now (KeyDown key) p =
  commit now false (config p)
    (mkChanged false false false false (handleKeyDown key (trackedKeys p)).2)
    (withTrackedKeys (handleKeyDown key (trackedKeys p)).1 p).
Proof. unfold step. by destruct (handleKeyDown key (trackedKeys p)). Qed.

Lemma step_KeyUp now key p :
  step now (KeyUp key) p =
  commit now false (config p)
    (mkChanged false false false false (handleKeyUp key (trackedKeys p)).2)
    (withTrackedKeys (handleKeyUp key (trackedKeys p)).1 p).
Proof. unfold step. by destruct (handleKeyUp key (trackedKeys p)). Qed.

Lemma commit_trackedKeys now mounting old ch p :
  trackedKeys (commit now mounting old ch p).1 = trackedKeys p.
Proof. by destruct (commit_cells now mounting old ch p) as (_ & _ & ? & _). Qed.

Lemma commit_kbEnabled now mounting old ch p :
  kbEnabled (commit now mounting old ch p).1 = kbEnabled p.
Proof. by destruct (commit_cells now mounting old ch p) as (_ & ? & _ & _). Qed.

Lemma commit_config now mounting old ch p :
  config (commit now mounting old ch p).1 = config p.
Proof. by destruct (commit_cells now mounting old ch p) as (_ & _ & _ & ?). Qed.

Lemma setJoy_cells j p :
  trackedKeys (setJoy j p) = trackedKeys p /\ kbEnabled (setJoy j p) = kbEnabled p /\
  config (setJoy j p) = config p /\ pubTopic (setJoy j p) = pubTopic p.
Proof. by destruct j. Qed.

Arguments commit : simpl never.
Arguments step : simpl never.

(** What a step does to the key table: only the key events touch it. *)
Lemma step_trackedKeys now ev p :
  trackedKeys (step now ev p).1 =
  match ev with
  | KeyDown key => (handleKeyDown key (trackedKeys p)).1
  | KeyUp key => (handleKeyUp key (trackedKeys p)).1
  | _ => trackedKeys p
  end.
Proof.
  destruct ev; unfold step;
    try destruct (handleKeyDown key (trackedKeys p));
    try destruct (handleKeyUp key (trackedKeys p));
    rewrite commit_trackedKeys; try done.
  - apply setJoy_cells.
  - apply setJoy_cells.
Qed.

(** ** Invariants of the reachable states *)

Lemma set_keys_NoDup {V} k (v : V) (m : JsMap.t V) :
  NoDup (JsMap.keys m) -> NoDup (JsMap.keys (JsMap.set k v m)).
Proof.
  intros H. rewrite keys_set. destruct (JsMap.has k m) eqn:E; [done|].
  apply NoDup_app. split; [done|]. split; [|apply NoDup_singleton].
  intros x Hx ->%list_elem_of_singleton.
  apply has_keys in Hx. congruence.
Qed.

Lemma initLoop_NoDup def : forall acc,
  NoDup (JsMap.keys acc) -> NoDup (JsMap.keys (foldl initLoop acc def)).
Proof.
  induction def as [|[k0 d0] def IH]; intros acc H; simpl; [done|].
  apply IH. by apply set_keys_NoDup.
Qed.

Lemma keyUpdater_NoDup v key t :
  NoDup (JsMap.keys t) ->
  exists t', (keyUpdater v key (Some t)).1 = Some t' /\ NoDup (JsMap.keys t').
Proof.
  intros H. destruct (JsMap.get key t) as [k|] eqn:E.
  - rewrite (keyUpdater_tracked _ _ _ _ E). eexists; split; [done|].
    by apply set_keys_NoDup.
  - rewrite (keyUpdater_untracked _ _ _ E). by exists t.
Qed.

Lemma mount_panel now def ic p calls :
  mount now def ic = Normal (p, calls) ->
  exists p0,
    p = (commit now true (initConfig ic) unchanged p0).1 /\
    messages p0 = None /\ joy p0 = None /\ pubTopic p0 = None /\
    kbEnabled p0 = true /\ trackedKeys p0 = Some (foldl initLoop [] def) /\
    config p0 = initConfig ic.
Proof.
  unfold mount, trackedKeysInit. intros [= <- _]. eexists. split; [done|]. done.
Qed.

(** The key table is never [undefined], its keys stay unique and its
    values stay press states. *)
Lemma reachable_trackedKeys def p :
  reachable def p ->
  exists t, trackedKeys p = Some t /\
            Forall binary (JsMap.values t) /\ NoDup (JsMap.keys t).
Proof.
  induction 1 as [now ic p calls Hm | now ev p Hr (t & Ht & Hb & Hn)].
  - apply mount_panel in Hm as (p0 & -> & _ & _ & _ & _ & Hk & _).
    rewrite commit_trackedKeys, Hk. eexists. split; [done|]. split.
    + eapply Forall_impl; [apply initLoop_values; constructor|].
      intros e He. by left.
    + apply initLoop_NoDup. constructor.
  - rewrite step_trackedKeys.
    assert (forall v key, v = 0 \/ v = 1 ->
              exists t', (keyUpdater v key (Some t)).1 = Some t' /\
                         Forall binary (JsMap.values t') /\
                         NoDup (JsMap.keys t')) as Hkey.
    { intros v key Hv.
      destruct (keyUpdater_binary v key t Hv Hb) as (t1 & E1 & H1).
      destruct (keyUpdater_NoDup v key t Hn) as (t2 & E2 & H2).
      exists t1. rewrite E1 in E2. injection E2 as <-. done. }
    destruct ev; rewrite ?Ht; try (by exists t).
    + apply Hkey. by right.
    + apply Hkey. by left.
Qed.

(** While publish mode is on, the advertised topic is the configured
    one. *)
Lemma reachable_pubTopic def p :
  reachable def p ->
  publishMode (config p) = true -> pubTopic p = Some (pubJoyTopic (config p)).
Proof.
  assert (forall now mounting old ch q,
            (mounting = false -> publishMode old = true ->
             pubTopic q = Some (pubJoyTopic old)) ->
            let r := (commit now mounting old ch q).1 in
            publishMode (config r) = true ->
            pubTopic r = Some (pubJoyTopic (config r))) as Hcommit.
  { intros now mounting old ch q Hold r. unfold r.
    rewrite commit_config, commit_pubTopic. intros Hmode.
    unfold depsAdvertise, effAdvertise, pubTopicUpdater. rewrite Hmode.
    destruct mounting; simpl; [done|].
    destruct (string_neqb (pubJoyTopic old) (pubJoyTopic (config q))) eqn:E1;
      simpl; [done|].
    destruct (publishMode old) eqn:E2; simpl; [|done].
    rewrite Hold by done. f_equal.
    unfold string_neqb in E1. apply negb_false_iff, String.eqb_eq in E1. done. }
  induction 1 as [now ic p calls Hm | now ev p Hr IH].
  - apply mount_panel in Hm as (p0 & -> & _). by apply Hcommit.
  - destruct ev; unfold step;
      try destruct (handleKeyDown key (trackedKeys p));
      try destruct (handleKeyUp key (trackedKeys p));
      apply Hcommit; intros _; try exact IH.
    + destruct (setJoy_cells (gamepadJoy now (config p) gp) p)
        as (_ & _ & _ & ->). exact IH.
    + destruct (setJoy_cells (interactiveJoyOf now (config p) interactiveJoy) p)
        as (_ & _ & _ & ->). exact IH.
Qed.

Lemma run_reachable def evs : forall p,
  reachable def p -> reachable def (run evs p).1.
Proof.
  induction evs as [|[now ev] evs IH]; intros p Hr; simpl; [done|].
  pose proof (reach_step def now ev p Hr) as Hs.
  destruct (step now ev p) as [p1 c1]. simpl in Hs.
  specialize (IH p1 Hs). by destruct (run evs p1).
Qed.

(** * The claims about the panel *)

(** C9: in every state the panel reaches, through whatever events, the
    key table exists and each of its values is 0 or 1.  A key-up on a
    tracked key leaves the key with value 0, whatever its value was (no
    key-down need have come before), and a key-down or key-up on a key
    that is not tracked leaves the whole panel as it is and makes no
    call. *)
Theorem C9_key_values_binary (kbmapping1 : list (string * KbDef)) (p : Panel) :
  reachable kbmapping1 p ->
  (exists t, trackedKeys p = Some t /\ Forall binary (JsMap.values t)) /\
  (forall now key t k,
     trackedKeys p = Some t -> JsMap.get key t = Some k ->
     exists t', trackedKeys (step now (KeyUp key) p).1 = Some t' /\
                JsMap.get key t' = Some (setValue 0 k) /\
                (value <$> JsMap.get key t') = Some 0) /\
  (forall now key t,
     trackedKeys p = Some t -> JsMap.get key t = None ->
     step now (KeyDown key) p = (p, []) /\ step now (KeyUp key) p = (p, [])).
Proof.
  intros Hr. split; [|split].
  - destruct (reachable_trackedKeys _ _ Hr) as (t & Ht & Hb & _). by exists t.
  - intros now key t k Ht Hk. rewrite step_trackedKeys. unfold handleKeyUp.
    rewrite Ht, (keyUpdater_tracked _ _ _ _ Hk). simpl.
    eexists. split; [done|]. rewrite get_set_same. done.
  - intros now key t Ht Hk.
    rewrite step_KeyDown, step_KeyUp. unfold handleKeyDown, handleKeyUp.
    rewrite Ht, !(keyUpdater_untracked _ _ _ Hk). simpl.
    assert (withTrackedKeys (Some t) p = p) as ->.
    { destruct p. simpl in Ht. by rewrite Ht. }
    split; apply commit_idle.
Qed.

Lemma C9_key_values_binary_witness :
  let kbmapping1 := [("w", mkKbDef (-1) 1 "+"); (" ", mkKbDef 0 (-1) "")] in
  exists p,
    reachable kbmapping1 p /\
    (exists t, trackedKeys p = Some t /\ Forall binary (JsMap.values t)) /\
    (value <$> (trackedKeys (step (mkTime 2 0) (KeyUp "w") p).1 ≫= JsMap.get "w"))
      = Some 0 /\
    step (mkTime 2 0) (KeyDown "q") p = (p, []).
Proof.
  intros kbmapping1. eexists. split.
  - eapply (reach_mount kbmapping1 (mkTime 0 0)
              (mkPartialConfig None None None None None None)).
    reflexivity.
  - match goal with
    | |- context [trackedKeys ?q = Some _] =>
        destruct (C9_key_values_binary kbmapping1 q) as (H1 & H2 & H3)
    end.
    + eapply (reach_mount kbmapping1 (mkTime 0 0)
                (mkPartialConfig None None None None None None)).
      reflexivity.
    + split; [exact H1|]. split; [reflexivity|].
      by apply (H3 (mkTime 2 0) "q" _ eq_refl).
Defined.

(** The commit of a step that leaves the configuration as it is, with
    the dependency arrays resolved. *)
Lemma commit_same_config now ch p :
  commit now false (config p) ch p =
  let j1 := if ch_messages ch then effReplay p else None in
  let j2 := if ch_trackedKeys ch || ch_kbEnabled ch then effKeyboard now p else None in
  let p' := setPubTopic (pubTopic p) (setJoy (lastJoy j1 j2) p) in
  (p',
   (if ch_joy ch || ch_pubTopic ch then effPublish p else [])
   ++ (if bool_decide (is_Some (lastJoy j1 j2)) then effPublish p' else [])).
Proof.
  unfold commit.
  destruct (deps_same_config (config p) ch) as (-> & -> & -> & -> & ->).
  simpl. by rewrite opt_string_neqb_refl, orb_false_r.
Qed.

Lemma setPubTopic_same p : setPubTopic (pubTopic p) p = p.
Proof. by destruct p. Qed.

(** C1, as the specification states it, fails.  With the key ["w"]
    bound to button 0 and the keyboard as source, the key goes down and
    the frame shows button 0 pressed; the keyboard is then disabled.  No
    frame is built by that, nor by the key events that follow: the frame
    of the panel is still the one with button 0 pressed, not a neutral
    one. *)
Lemma C1_disabled_frame_not_neutral :
  let kbmapping1 := [("w", mkKbDef 0 (-1) "+")] in
  let cfg := mkPartialConfig None None None None (Some KeyboardSource) None in
  exists p0 calls0,
    mount (mkTime 0 0) kbmapping1 cfg = Normal (p0, calls0) /\
    let p := (run [(mkTime 1 0, KeyDown "w"); (mkTime 2 0, KbSwitch false)] p0).1 in
    let p' := (run [(mkTime 3 0, KeyUp "w"); (mkTime 4 0, KeyDown "w")] p).1 in
    kbEnabled p = false /\
    joy p = Some {| header := {| stamp := mkTime 1 0; frame_id := "" |};
                    axes := []; buttons := [1] |} /\
    joy p' = joy p.
Proof. eexists _, _. split; [reflexivity|]. repeat split; reflexivity. Qed.

(** What the replay effect hands to [setJoy]. *)
Lemma effReplay_Some q j :
  effReplay q = Some j ->
  exists earlier m,
    messages q = Some (earlier ++ [m]) /\
    j = restamped (publishFrameId (config q)) m.
Proof.
  unfold effReplay. destruct (messages q) as [msgs|]; [|done].
  destruct (last msgs) as [m|] eqn:E; [|done].
  apply last_Some in E as [earlier ->]. intros [= <-]. by exists earlier, m.
Qed.

(** A commit in which the keyboard effect builds nothing leaves the
    frame alone or takes the frame of the replay effect. *)
Lemma commit_joy_no_keyboard now mounting old ch q :
  effKeyboard now q = None ->
  let r := (commit now mounting old ch q).1 in
  joy r = joy q \/
  exists earlier m,
    messages r = Some (earlier ++ [m]) /\
    joy r = Some (restamped (publishFrameId (config r)) m).
Proof.
  intros Hkb r. unfold r.
  destruct (commit_cells now mounting old ch q) as (-> & _ & _ & ->).
  rewrite commit_joy, Hkb, Tauto.if_same.
  destruct (if mounting || depsReplay old (config q) ch then effReplay q else None)
    as [j|] eqn:E; [|by left].
  right. destruct (mounting || depsReplay old (config q) ch); [|done].
  apply effReplay_Some in E as (earlier & m & Hm & ->). by exists earlier, m.
Qed.

(** On the keyboard source no handler writes the frame. *)
Lemma step_keyboard_source now ev q :
  dataSource (config q) = KeyboardSource ->
  exists ch q0, step now ev q = commit now false (config q) ch q0 /\ joy q0 = joy q.
Proof.
  intros Hsrc. destruct ev; unfold step;
    try destruct (handleKeyDown key (trackedKeys q));
    try destruct (handleKeyUp key (trackedKeys q));
    try (eexists _, _; split; [reflexivity | done]).
  - unfold gamepadJoy. rewrite Hsrc. eexists _, _. split; [reflexivity | done].
  - unfold interactiveJoyOf. rewrite Hsrc. eexists _, _. split; [reflexivity | done].
Qed.

(** A delivery of messages while the keyboard is the source and
    disabled: the replay effect has no guard on the source. *)
Example replay_on_disabled_keyboard :
  let held := mkJoy (mkHeader (mkTime 1 0) "") [] [1] in
  let m := mkJoy (mkHeader (mkTime 5 0) "X") [2] [0] in
  let q := mkPanel None (Some held) None false (Some [("w", mkKbMap 0 (-1) 1 1)])
             (mkConfig "/joy" "/joy" false "Y" KeyboardSource 0) in
  joy (step (mkTime 6 0) (Render (Some [m])) q).1 =
  Some (mkJoy (mkHeader (mkTime 5 0) "Y") [2] [0]).
Proof. reflexivity. Qed.

(** C1, amended: disabling the keyboard while keys are held suspends
    the keyboard frame builder; it does not make it build neutral frames.
    The switch itself and every key event that follows leave the frame of
    the panel exactly as it was; the key table is not cleared, and key
    events go on updating it.  As long as the keyboard stays the source
    and disabled, whatever the event, the frame either stays as it was or
    becomes the last replayed message re-stamped with the configured
    frame id (the replay effect, which has no guard on the source).
    Enabling the keyboard again builds a frame from the key table as it is
    then, which shows the keys that are held. *)
Theorem C1_disable_suspends_frames (now : Time) (p : Panel) :
  dataSource (config p) = KeyboardSource ->
  kbEnabled p = true ->
  let p1 := (step now (KbSwitch false) p).1 in
  (joy p1 = joy p /\ trackedKeys p1 = trackedKeys p /\ kbEnabled p1 = false) /\
  (forall now' key,
     let p2 := (step now' (KeyDown key) p1).1 in
     joy p2 = joy p /\ trackedKeys p2 = (handleKeyDown key (trackedKeys p)).1) /\
  (forall now' key,
     let p2 := (step now' (KeyUp key) p1).1 in
     joy p2 = joy p /\ trackedKeys p2 = (handleKeyUp key (trackedKeys p)).1) /\
  (forall now',
     joy (step now' (KbSwitch true) p1).1 =
     Some (kbFrame now' (publishFrameId (config p)) (trackedKeys p))) /\
  (forall now' ev q,
     dataSource (config q) = KeyboardSource -> kbEnabled q = false ->
     let q' := (step now' ev q).1 in
     dataSource (config q') = KeyboardSource -> kbEnabled q' = false ->
     (joy q' = joy q \/
      exists earlier m,
        messages q' = Some (earlier ++ [m]) /\
        joy q' = Some (restamped (publishFrameId (config q')) m)) /\
     (forall key, ev = KeyDown key \/ ev = KeyUp key -> joy q' = joy q)).
Proof.
  intros Hsrc Hon p1.
  assert (p1 = withKbEnabled false p) as ->.
  { unfold p1, step.
    change (config p) with (config (withKbEnabled false p)).
    rewrite commit_same_config. simpl. rewrite Hon. simpl.
    unfold effKeyboard. simpl. rewrite Hsrc. simpl.
    by destruct p. }
  split; [done|]. split; [|split; [|split]].
  - intros now' key p2. unfold p2. rewrite step_KeyDown.
    change (config (withKbEnabled false p))
      with (config (withTrackedKeys
                      (handleKeyDown key (trackedKeys (withKbEnabled false p))).1
                      (withKbEnabled false p))).
    rewrite commit_same_config. simpl.
    unfold effKeyboard. simpl. rewrite Hsrc. simpl.
    by rewrite orb_false_r, Tauto.if_same.
  - intros now' key p2. unfold p2. rewrite step_KeyUp.
    change (config (withKbEnabled false p))
      with (config (withTrackedKeys
                      (handleKeyUp key (trackedKeys (withKbEnabled false p))).1
                      (withKbEnabled false p))).
    rewrite commit_same_config. simpl.
    unfold effKeyboard. simpl. rewrite Hsrc. simpl.
    by rewrite orb_false_r, Tauto.if_same.
  - intros now'. unfold step.
    change (config (withKbEnabled false p))
      with (config (withKbEnabled true (withKbEnabled false p))).
    rewrite commit_same_config. simpl.
    unfold effKeyboard. simpl. rewrite Hsrc. simpl. done.
  - intros now' ev q Hq Hoff q' Hq' Hoff'. split.
    + destruct (step_keyboard_source now' ev q Hq) as (ch & q0 & E & Hj).
      unfold q' in *. rewrite E in *. rewrite <- Hj.
      apply commit_joy_no_keyboard.
      rewrite commit_kbEnabled in Hoff'. unfold effKeyboard.
      rewrite Hoff'. by destruct (negb _).
    + intros key [-> | ->]; unfold q'.
      * rewrite step_KeyDown.
        change (config q)
          with (config (withTrackedKeys (handleKeyDown key (trackedKeys q)).1 q)).
        rewrite commit_same_config. simpl.
        unfold effKeyboard. simpl. rewrite Hoff, Hq. simpl.
        by rewrite orb_false_r, Tauto.if_same.
      * rewrite step_KeyUp.
        change (config q)
          with (config (withTrackedKeys (handleKeyUp key (trackedKeys q)).1 q)).
        rewrite commit_same_config. simpl.
        unfold effKeyboard. simpl. rewrite Hoff, Hq. simpl.
        by rewrite orb_false_r, Tauto.if_same.
Qed.

Lemma C1_disable_suspends_frames_witness :
  let p := mkPanel None None None true (Some [("w", mkKbMap 0 (-1) 1 1)])
             (mkConfig "/joy" "/joy" false "base" KeyboardSource 0) in
  let p1 := (step (mkTime 1 0) (KbSwitch false) p).1 in
  trackedKeys p1 = trackedKeys p /\
  joy (step (mkTime 2 0) (KbSwitch true) p1).1 =
    Some {| header := {| stamp := mkTime 2 0; frame_id := "base" |};
            axes := []; buttons := [1] |}.
Proof.
  intros p p1.
  destruct (C1_disable_suspends_frames (mkTime 1 0) p)
    as ((_ & H1 & _) & _ & _ & H4 & _);
    [reflexivity | reflexivity |].
  split; [exact H1 | exact (H4 (mkTime 2 0))].
Defined.




(** C7: when the host delivers messages, the frame of the panel becomes
    the last message re-stamped: its [frame_id] is the configured
    [publishFrameId] whatever the one of the message was, its time stamp
    is the one of the message, and its axes and buttons are those of the
    message, element for element.  This holds in every mode, the replay
    of a subscribed topic among them. *)
Theorem C7_replay_pass_through (now : Time) (p : Panel)
    (earlier : list Joy) (m : Joy) :
  joy (step now (Render (Some (earlier ++ [m]))) p).1 =
  Some {| header := {| stamp := stamp (header m);
                       frame_id := publishFrameId (config p) |};
          axes := axes m;
          buttons := buttons m |}.
Proof.
  unfold step.
  change (config p) with (config (withMessages (Some (earlier ++ [m])) p)) at 1.
  rewrite commit_same_config. simpl.
  unfold effReplay. simpl. by rewrite last_snoc.
Qed.

(** A message with [frame_id] ["X"] replayed under the configured
    [frame_id] ["Y"]. *)
Example replay_X_as_Y :
  let p := mkPanel None None None true (Some [])
             (mkConfig "/joy" "/joy" false "Y" SubJoyTopic 0) in
  let m := {| header := {| stamp := mkTime 5 6; frame_id := "X" |};
              axes := [1; -1]; buttons := [0; 1; 1] |} in
  joy (step (mkTime 9 0) (Render (Some [m])) p).1 =
  Some {| header := {| stamp := mkTime 5 6; frame_id := "Y" |};
          axes := [1; -1]; buttons := [0; 1; 1] |}.
Proof. reflexivity. Qed.

(** ** Advertisements *)

Lemma advCalls_app l1 l2 : advCalls (l1 ++ l2) = advCalls l1 ++ advCalls l2.
Proof. apply filter_app. Qed.

Lemma advCalls_effSubscribe c : advCalls (effSubscribe c) = [].
Proof. unfold effSubscribe. by destruct (DataSource_eqb _ _). Qed.

Lemma advCalls_effPublish p : advCalls (effPublish p) = [].
Proof.
  unfold effPublish. destruct (negb _); [done|].
  destruct (pubTopic p); [|done]. by destruct (_ && _).
Qed.

(** Only the advertise effect advertises. *)
Lemma advCalls_commit now mounting old ch p :
  advCalls (commit now mounting old ch p).2 =
  (if mounting || depsAdvertise old (config p)
   then effAdvertise p else (pubTopic p, [])).2.
Proof.
  unfold commit. cbn [snd]. rewrite !advCalls_app.
  assert (forall (b : bool) c, advCalls (if b then effSubscribe c else []) = []) as ->
    by (intros [] c; [apply advCalls_effSubscribe | done]).
  assert (forall (b : bool) q, advCalls (if b then effPublish q else []) = []) as Hpub
    by (intros [] q; [apply advCalls_effPublish | done]).
  rewrite !Hpub, !app_nil_r. simpl.
  destruct (mounting || depsAdvertise old (config p)); [|done].
  unfold effAdvertise. destruct (publishMode (config p)); [|done].
  unfold pubTopicUpdater. simpl. rewrite advCalls_app.
  destruct (truthy (pubTopic p)); [|done].
  by destruct (pubTopic p).
Qed.

(** C8: changing the publish topic while publish mode is on.  In a
    state the panel can reach with publish mode on and the topic [a]
    configured ([a] not the empty string), a change of the configuration
    that keeps publish mode on and sets another topic [b] makes, among
    the advertise and unadvertise calls, exactly [unadvertise(a)] and
    then [advertise(b)]. *)
Theorem C8_topic_switch (kbmapping1 : list (string * KbDef)) (now : Time)
    (p : Panel) (a b : string) (c' : Config) :
  reachable kbmapping1 p ->
  publishMode (config p) = true ->
  pubJoyTopic (config p) = a ->
  a ≠ "" ->
  a ≠ b ->
  publishMode c' = true ->
  pubJoyTopic c' = b ->
  advCalls (step now (ConfigChange c') p).2 =
    [Unadvertise a; Advertise b "sensor_msgs/Joy"] /\
  pubTopic (step now (ConfigChange c') p).1 = Some b.
Proof.
  intros Hr Hmode Ha Hne Hab Hmode' Hb.
  pose proof (reachable_pubTopic _ _ Hr Hmode) as Hpt. rewrite Ha in Hpt.
  unfold step. rewrite advCalls_commit, commit_pubTopic. simpl.
  unfold depsAdvertise, effAdvertise, pubTopicUpdater. simpl.
  rewrite Ha, Hb, Hmode', Hpt, (string_neqb_ne a b Hab). simpl.
  by rewrite (string_neqb_ne a "" Hne).
Qed.

Lemma C8_topic_switch_witness :
  let cfg := mkPartialConfig None (Some "/a") (Some true) None None None in
  let c' := mkConfig "/joy" "/b" true "" SubJoyTopic 0 in
  exists p calls,
    mount (mkTime 0 0) [] cfg = Normal (p, calls) /\
    advCalls calls = [Advertise "/a" "sensor_msgs/Joy"] /\
    advCalls (step (mkTime 1 0) (ConfigChange c') p).2 =
      [Unadvertise "/a"; Advertise "/b" "sensor_msgs/Joy"].
Proof.
  intros cfg c'. eexists _, _. split; [reflexivity|]. split; [reflexivity|].
  refine (proj1 (C8_topic_switch [] (mkTime 1 0) _ "/a" "/b" c' _ _ _ _ _ _ _));
    try reflexivity; try discriminate.
  eapply (reach_mount [] (mkTime 0 0) cfg). reflexivity.
Defined.


(** * Further properties of the key table *)

Section JsMapLaws.
Context {V : Type}.
Implicit Types (m : JsMap.t V) (k : string) (v : V).

Lemma set_absent k v m : JsMap.get k m = None -> JsMap.set k v m = m ++ [(k, v)].
Proof.
  induction m as [|[k' v'] m IH]; simpl; [done|].
  destruct (String.eqb k k'); [done|]. intros H. by rewrite IH.
Qed.

Lemma set_set k v1 v2 m : JsMap.set k v2 (JsMap.set k v1 m) = JsMap.set k v2 m.
Proof.
  induction m as [|[k' v'] m IH]; simpl.
  - by rewrite String.eqb_refl.
  - destruct (String.eqb k k') eqn:E; simpl; rewrite E; [done | by rewrite IH].
Qed.

Lemma set_get_id k v m : JsMap.get k m = Some v -> JsMap.set k v m = m.
Proof.
  induction m as [|[k' v'] m IH]; simpl; [done|].
  destruct (String.eqb k k'); [by intros [= ->] | intros H; by rewrite IH].
Qed.

Lemma set_comm k1 k2 v1 v2 m :
  k1 ≠ k2 -> is_Some (JsMap.get k1 m) -> is_Some (JsMap.get k2 m) ->
  JsMap.set k1 v1 (JsMap.set k2 v2 m) = JsMap.set k2 v2 (JsMap.set k1 v1 m).
Proof.
  intros Hne. induction m as [|[k' v'] m IH]; simpl.
  - by intros [? ?].
  - destruct (String.eqb k1 k') eqn:E1; destruct (String.eqb k2 k') eqn:E2.
    + apply String.eqb_eq in E1, E2. congruence.
    + intros _ _. simpl. by rewrite E1, E2.
    + intros _ _. simpl. by rewrite E1, E2.
    + intros H1 H2. simpl. rewrite E1, E2. by rewrite IH.
Qed.

Lemma get_fmap_values {W} (f : V -> W) k m :
  JsMap.get k ((fun kv => (kv.1, f kv.2)) <$> m) = f <$> JsMap.get k m.
Proof.
  induction m as [|[k' v'] m IH]; [done|].
  rewrite fmap_cons. simpl. by destruct (String.eqb k k').
Qed.

Lemma set_fmap_values {W} (f : V -> W) k v m :
  (fun kv => (kv.1, f kv.2)) <$> JsMap.set k v m =
  JsMap.set k (f v) ((fun kv => (kv.1, f kv.2)) <$> m).
Proof.
  induction m as [|[k' v'] m IH]; [done|].
  rewrite fmap_cons. simpl. destruct (String.eqb k k'); [done|].
  by rewrite fmap_cons, IH.
Qed.
End JsMapLaws.

Lemma initLoop_in_order def : forall acc,
  NoDup (JsMap.keys acc ++ def.*1) ->
  foldl initLoop acc def = acc ++ tableOfDef def.
Proof.
  unfold tableOfDef.
  induction def as [|[k0 d0] def IH]; intros acc Hnd; simpl.
  - by rewrite app_nil_r.
  - assert (JsMap.get k0 acc = None) as Hfresh.
    { apply has_false_get. destruct (JsMap.has k0 acc) eqn:E; [|done].
      apply has_keys in E. apply NoDup_app in Hnd as (_ & Hd & _).
      exfalso. apply (Hd k0 E). rewrite fmap_cons. left. }
    unfold initLoop at 2. simpl. rewrite (set_absent _ _ _ Hfresh).
    rewrite IH.
    + by rewrite <- app_assoc.
    + unfold JsMap.keys in *. rewrite fmap_app, <- app_assoc. simpl.
      by rewrite fmap_cons in Hnd.
Qed.

(** X1: when no key occurs twice in the mapping definition (as in the
    entries of an object), the table holds one entry per definition, in
    the order of the definition: this is the order in which the frame
    builder visits them. *)
Theorem X1_table_keeps_definition_order (kbmapping1 : list (string * KbDef)) :
  NoDup kbmapping1.*1 ->
  trackedKeysInit kbmapping1 = Normal (tableOfDef kbmapping1) /\
  JsMap.keys (tableOfDef kbmapping1) = kbmapping1.*1.
Proof.
  intros Hnd. split.
  - unfold trackedKeysInit. by rewrite initLoop_in_order.
  - unfold JsMap.keys, tableOfDef. rewrite <- list_fmap_compose.
    by apply list_fmap_ext.
Qed.

Lemma X1_table_keeps_definition_order_witness :
  trackedKeysInit [("w", mkKbDef (-1) 1 "+"); ("s", mkKbDef (-1) 1 "-")] =
  Normal [("w", mkKbMap (-1) 1 1 0); ("s", mkKbMap (-1) 1 0 0)].
Proof.
  refine (proj1 (X1_table_keeps_definition_order
                   [("w", mkKbDef (-1) 1 "+"); ("s", mkKbDef (-1) 1 "-")] _)).
  apply (bool_decide_unpack (NoDup ["w"; "s"])). by vm_compute.
Defined.

Lemma setValue_setValue v w k : setValue v (setValue w k) = setValue v k.
Proof. done. Qed.

Lemma setValue_id k : setValue (value k) k = k.
Proof. by destruct k. Qed.

Lemma released_keyUpdater v key t :
  exists t', (keyUpdater v key (Some t)).1 = Some t' /\ released t' = released t.
Proof.
  destruct (JsMap.get key t) as [k|] eqn:E.
  - rewrite (keyUpdater_tracked _ _ _ _ E). eexists. split; [done|].
    unfold released. rewrite set_fmap_values, setValue_setValue.
    apply set_get_id. by rewrite get_fmap_values, E.
  - rewrite (keyUpdater_untracked _ _ _ E). by exists t.
Qed.

Lemma released_init def : released (foldl initLoop [] def) = foldl initLoop [] def.
Proof.
  pose proof (initLoop_values def [] (Forall_nil_2 _)) as H.
  unfold released. induction (foldl initLoop [] def) as [|[k e] t IH]; [done|].
  rewrite values_cons in H. apply Forall_cons in H as [He Ht].
  rewrite fmap_cons, IH by done. simpl. do 2 f_equal.
  rewrite <- He. apply setValue_id.
Qed.

(** X2: key events change press states and nothing else.  In every
    state the panel reaches, the key table with all keys released is the
    table the initializer built: no key is added, removed or moved, and no
    button index, axis index or direction is ever changed. *)
Theorem X2_events_change_values_only (kbmapping1 : list (string * KbDef))
    (p : Panel) :
  reachable kbmapping1 p ->
  exists t, trackedKeys p = Some t /\
            trackedKeysInit kbmapping1 = Normal (released t).
Proof.
  induction 1 as [now ic p calls Hm | now ev p Hr (t & Ht & Hrel)].
  - apply mount_panel in Hm as (p0 & -> & _ & _ & _ & _ & Hk & _).
    rewrite commit_trackedKeys, Hk. eexists. split; [done|].
    by rewrite released_init.
  - rewrite step_trackedKeys.
    destruct ev; rewrite ?Ht; try (by exists t).
    + destruct (released_keyUpdater 1 key t) as (t' & E & Hrel').
      exists t'. split; [exact E | by rewrite Hrel'].
    + destruct (released_keyUpdater 0 key t) as (t' & E & Hrel').
      exists t'. split; [exact E | by rewrite Hrel'].
Qed.

Lemma X2_events_change_values_only_witness :
  let kbmapping1 := [("w", mkKbDef (-1) 1 "+"); (" ", mkKbDef 0 (-1) "")] in
  exists p t,
    reachable kbmapping1 p /\
    trackedKeys p = Some t /\
    JsMap.get "w" t = Some (mkKbMap (-1) 1 1 1) /\
    trackedKeysInit kbmapping1 = Normal (released t).
Proof.
  intros kbmapping1.
  assert (reachable kbmapping1
            (step (mkTime 1 0) (KeyDown "w")
               (commit (mkTime 0 0) true
                  (initConfig (mkPartialConfig None None None None None None))
                  unchanged
                  (mkPanel None None None true
                     (Some [("w", mkKbMap (-1) 1 1 0); (" ", mkKbMap 0 (-1) 0 0)])
                     (initConfig (mkPartialConfig None None None None None None)))).1).1)
    as Hr.
  { apply reach_step.
    by apply (reach_mount kbmapping1 (mkTime 0 0)
                (mkPartialConfig None None None None None None) _
                [Subscribe ["/joy"]]). }
  destruct (X2_events_change_values_only kbmapping1 _ Hr) as (t & Ht & Hrel).
  eexists _, t. split; [exact Hr|]. split; [exact Ht|]. split; [|exact Hrel].
  vm_compute in Ht. injection Ht as <-. reflexivity.
Defined.

Lemma keyUpdater_get v key t k :
  JsMap.get key t = Some k ->
  JsMap.get key (JsMap.set key (setValue v k) t) = Some (setValue v k).
Proof. intros _. apply get_set_same. Qed.

Lemma keyUpdater_twice v w key tk :
  keyUpdater v key (keyUpdater w key tk).1 =
  ((keyUpdater v key tk).1, (keyUpdater v key tk).2).
Proof.
  destruct tk as [t|]; [|done].
  destruct (JsMap.get key t) as [k|] eqn:E.
  - rewrite (keyUpdater_tracked w _ _ _ E). cbn [fst snd].
    rewrite (keyUpdater_tracked v _ _ _ (keyUpdater_get w key t k E)).
    rewrite (keyUpdater_tracked v _ _ _ E).
    cbn [fst snd]. by rewrite set_set, setValue_setValue.
  - rewrite (keyUpdater_untracked w _ _ E). cbn [fst snd].
    by rewrite (keyUpdater_untracked v _ _ E).
Qed.

(** X3: for one key only the last event counts.  Applying the updater
    of a key event after another one for the same key gives the table
    that the later event alone gives; with [handleKeyDown] twice this is
    the idempotence of a repeated key-down.  For a tracked key the
    repeated event returns a new map again, as the first did; for a key
    that is not tracked it returns the old map. *)
Theorem X3_last_key_event_wins (v w : Z) (key : string)
    (tk : option (JsMap.t KbMap)) :
  (keyUpdater v key (keyUpdater w key tk).1).1 = (keyUpdater v key tk).1 /\
  (keyUpdater v key (keyUpdater w key tk).1).2 = (keyUpdater v key tk).2 /\
  (handleKeyDown key (handleKeyDown key tk).1).1 = (handleKeyDown key tk).1 /\
  (forall t k, tk = Some t -> JsMap.get key t = Some k ->
     (keyUpdater w key tk).2 = true /\
     (keyUpdater v key (keyUpdater w key tk).1).2 = true /\
     (handleKeyDown key (handleKeyDown key tk).1).2 = true) /\
  (forall t, tk = Some t -> JsMap.get key t = None ->
     (keyUpdater v key (keyUpdater w key tk).1) = (tk, false)).
Proof.
  split; [|split; [|split; [|split]]].
  - by rewrite keyUpdater_twice.
  - by rewrite keyUpdater_twice.
  - unfold handleKeyDown. by rewrite keyUpdater_twice.
  - intros t k -> Hk. unfold handleKeyDown. rewrite !keyUpdater_twice.
    cbn [fst snd]. by rewrite !(keyUpdater_tracked _ _ _ _ Hk).
  - intros t -> Hk. rewrite keyUpdater_twice.
    by rewrite (keyUpdater_untracked _ _ _ Hk).
Qed.

(** X4: pressing and releasing a key that was released restores the
    table exactly. *)
Theorem X4_press_release_round_trip (key : string) (t : JsMap.t KbMap)
    (k : KbMap) :
  JsMap.get key t = Some k ->
  value k = 0 ->
  (handleKeyUp key (handleKeyDown key (Some t)).1).1 = Some t.
Proof.
  intros Hk Hv. unfold handleKeyUp, handleKeyDown.
  rewrite keyUpdater_twice. cbn [fst snd].
  rewrite (keyUpdater_tracked _ _ _ _ Hk). cbn [fst snd]. f_equal.
  apply set_get_id. rewrite Hk. f_equal. rewrite <- Hv. symmetry. apply setValue_id.
Qed.

Lemma X4_press_release_round_trip_witness :
  let t := [("w", mkKbMap (-1) 1 1 0); (" ", mkKbMap 0 (-1) 0 1)] in
  (handleKeyUp "w" (handleKeyDown "w" (Some t)).1).1 = Some t.
Proof.
  intros t.
  apply (X4_press_release_round_trip "w" t (mkKbMap (-1) 1 1 0)); reflexivity.
Defined.

(** X5: events for different keys commute: the table after both is the
    same in either order, tracked or not. *)
Theorem X5_distinct_keys_commute (v w : Z) (k1 k2 : string)
    (tk : option (JsMap.t KbMap)) :
  k1 ≠ k2 ->
  (keyUpdater v k1 (keyUpdater w k2 tk).1).1 =
  (keyUpdater w k2 (keyUpdater v k1 tk).1).1.
Proof.
  intros Hne. destruct tk as [t|]; [|done].
  destruct (JsMap.get k1 t) as [e1|] eqn:E1;
    destruct (JsMap.get k2 t) as [e2|] eqn:E2.
  - rewrite (keyUpdater_tracked _ _ _ _ E1), (keyUpdater_tracked _ _ _ _ E2).
    cbn [fst snd].
    rewrite (keyUpdater_tracked v k1 _ e1), (keyUpdater_tracked w k2 _ e2).
    + cbn [fst snd]. f_equal. apply set_comm; [done | by rewrite E1 | by rewrite E2].
    + by rewrite get_set_other.
    + by rewrite get_set_other.
  - rewrite (keyUpdater_tracked _ _ _ _ E1), (keyUpdater_untracked _ _ _ E2).
    cbn [fst snd]. rewrite (keyUpdater_tracked _ _ _ _ E1), keyUpdater_untracked; [done|].
    by rewrite get_set_other.
  - rewrite (keyUpdater_untracked _ _ _ E1), (keyUpdater_tracked _ _ _ _ E2).
    cbn [fst snd]. rewrite (keyUpdater_tracked _ _ _ _ E2), keyUpdater_untracked; [done|].
    by rewrite get_set_other.
  - rewrite (keyUpdater_untracked _ _ _ E1), (keyUpdater_untracked _ _ _ E2).
    cbn [fst snd]. by rewrite (keyUpdater_untracked _ _ _ E1), (keyUpdater_untracked _ _ _ E2).
Qed.

Lemma X5_distinct_keys_commute_witness :
  let t := Some [("w", mkKbMap (-1) 1 1 0); (" ", mkKbMap 0 (-1) 0 1)] in
  (handleKeyDown "w" (handleKeyUp " " t).1).1 =
  (handleKeyUp " " (handleKeyDown "w" t).1).1.
Proof.
  intros t. apply (X5_distinct_keys_commute 1 0 "w" " " t). discriminate.
Defined.

(** * Further properties of the frame builder *)

(** X6: every cell of a keyboard-built frame, in closed form.  Cell [i]
    of the axes is the sum, over all axis entries bound to [i], of the
    press state with its sign, so two held keys of the same sign give 2:
    nothing is clamped.  Cell [i] of the buttons is the press state of the
    last button entry bound to [i], and 0 when there is none. *)
Theorem X6_frame_cells (now : Time) (fid : string) (t : JsMap.t KbMap) (i : nat) :
  let f := kbFrame now fid (Some t) in
  ((i < length (axes f))%nat ->
   axes f !! i = Some (axisSum i (JsMap.values t))) /\
  ((i < length (buttons f))%nat ->
   buttons f !! i = Some (default 0 (lastButton i (JsMap.values t)))).
Proof.
  intros f. unfold f. rewrite kbFrame_axes, kbFrame_buttons. simpl. split.
  - intros Hi. rewrite lookup_get0 by done. by rewrite fold_get0_axes.
  - intros Hi. rewrite lookup_get0 by done. by rewrite fold_get0_buttons.
Qed.

(** Two held keys pushing axis 1 the same way. *)
Example kbFrame_same_sign_sums :
  axes (kbFrame (mkTime 0 0) ""
          (Some [("w", mkKbMap (-1) 1 1 1); ("i", mkKbMap (-1) 1 1 1)])) = [0; 2].
Proof. reflexivity. Qed.

Lemma kbArrays_neutral (t : JsMap.t KbMap) :
  Forall (fun e => value e = 0) (JsMap.values t) ->
  Forall (eq 0) (kbArrays (Some t)).1 /\ Forall (eq 0) (kbArrays (Some t)).2.
Proof.
  intros Hrel. simpl.
  assert (forall e, e ∈ JsMap.values t -> value e = 0) as Hz
    by by apply Forall_forall.
  split; apply Forall_lookup; intros i x Hx.
  - pose proof (lookup_lt_Some _ _ _ Hx) as Hi.
    rewrite lookup_get0 in Hx by done. injection Hx as <-.
    rewrite fold_get0_axes. simpl. rewrite axisSum_zero; [done|].
    intros k Hk _. by apply Hz.
  - pose proof (lookup_lt_Some _ _ _ Hx) as Hi.
    rewrite lookup_get0 in Hx by done. injection Hx as <-.
    rewrite fold_get0_buttons. simpl. symmetry. apply lastButton_zero.
    intros k Hk _. by apply Hz.
Qed.

(** X7: with every key released the frame is neutral: all its axes and
    all its buttons are 0. *)
Theorem X7_released_table_neutral_frame (now : Time) (fid : string)
    (t : JsMap.t KbMap) :
  Forall (fun e => value e = 0) (JsMap.values t) ->
  Forall (eq 0) (axes (kbFrame now fid (Some t))) /\
  Forall (eq 0) (buttons (kbFrame now fid (Some t))).
Proof.
  intros H. rewrite kbFrame_axes, kbFrame_buttons. by apply kbArrays_neutral.
Qed.

Lemma X7_released_table_neutral_frame_witness :
  Forall (eq 0)
    (axes (kbFrame (mkTime 0 0) ""
             (Some [("w", mkKbMap (-1) 1 1 0); (" ", mkKbMap 2 (-1) 0 0)]))).
Proof.
  refine (proj1 (X7_released_table_neutral_frame (mkTime 0 0) ""
                   [("w", mkKbMap (-1) 1 1 0); (" ", mkKbMap 2 (-1) 0 0)] _)).
  repeat constructor.
Defined.

(** X8: what the panel shows when it is mounted.  On the keyboard
    source the first commit builds a frame at once, stamped with the
    clock and the configured frame id and neutral in every cell; on every
    other source there is no frame yet. *)
Theorem X8_mount_frame (now : Time) (kbmapping1 : list (string * KbDef))
    (initialState : PartialConfig) (p : Panel) (calls : list Call) :
  mount now kbmapping1 initialState = Normal (p, calls) ->
  (dataSource (initConfig initialState) = KeyboardSource ->
   exists f, joy p = Some f /\
             header f = {| stamp := now;
                           frame_id := publishFrameId (initConfig initialState) |} /\
             Forall (eq 0) (axes f) /\ Forall (eq 0) (buttons f)) /\
  (dataSource (initConfig initialState) <> KeyboardSource -> joy p = None).
Proof.
  intros Hm.
  apply mount_panel in Hm as (p0 & -> & Hmsg & Hjoy & _ & Hkb & Hk & Hc).
  rewrite commit_joy. simpl. unfold effReplay, effKeyboard.
  rewrite Hmsg, Hjoy, Hkb, Hk, Hc. simpl. split.
  - intros ->. simpl. eexists. split; [done|].
    rewrite kbFrame_header, kbFrame_axes, kbFrame_buttons.
    split; [done|]. apply kbArrays_neutral. apply initLoop_values. constructor.
  - intros Hne.
    destruct (DataSource_eqb _ KeyboardSource) eqn:E; [|done].
    by apply DataSource_eqb_eq in E.
Qed.

Lemma X8_mount_frame_witness :
  exists p calls,
    mount (mkTime 3 0) [(" ", mkKbDef 1 (-1) "")]
      (mkPartialConfig None None None (Some "base") (Some KeyboardSource) None)
    = Normal (p, calls) /\
    joy p = Some {| header := {| stamp := mkTime 3 0; frame_id := "base" |};
                    axes := []; buttons := [0; 0] |}.
Proof.
  eexists _, _. split; [reflexivity|].
  match goal with
  | |- joy ?q = _ =>
      destruct (X8_mount_frame (mkTime 3 0) [(" ", mkKbDef 1 (-1) "")]
                  (mkPartialConfig None None None (Some "base")
                     (Some KeyboardSource) None) q
                  [UnsubscribeAll] eq_refl) as [H _]
  end.
  destruct (H eq_refl) as (f & Hf & _). reflexivity.
Defined.

Lemma polarity_abs k : polarity k = 1 \/ polarity k = -1.
Proof. unfold polarity. destruct (0 <? direction k); auto. Qed.

Lemma axisSum_bound i ks :
  Forall binary ks -> - Z.of_nat (length ks) <= axisSum i ks <= Z.of_nat (length ks).
Proof.
  induction 1 as [|k ks Hk Hks IH]; [simpl; lia|].
  rewrite axisSum_cons. rewrite length_cons.
  destruct (onAxis i k); [|lia].
  destruct (polarity_abs k) as [-> | ->], Hk as [-> | ->]; lia.
Qed.

(** X9: the range of a keyboard-built frame.  When every press state
    of the table is 0 or 1, as it is in every state the panel reaches,
    every button of the frame is 0 or 1 and every axis lies between [-n]
    and [n], [n] the number of keys of the table. *)
Theorem X9_frame_range (now : Time) (fid : string) (t : JsMap.t KbMap) :
  Forall binary (JsMap.values t) ->
  Forall (fun b => b = 0 \/ b = 1) (buttons (kbFrame now fid (Some t))) /\
  Forall (fun a => - Z.of_nat (length t) <= a <= Z.of_nat (length t))
    (axes (kbFrame now fid (Some t))).
Proof.
  intros Hbin. rewrite kbFrame_axes, kbFrame_buttons. simpl.
  split; apply Forall_lookup; intros i x Hx;
    pose proof (lookup_lt_Some _ _ _ Hx) as Hi;
    rewrite lookup_get0 in Hx by done; injection Hx as <-.
  - rewrite fold_get0_buttons. simpl.
    destruct (lastButton i (JsMap.values t)) as [v|] eqn:E; [|by left].
    apply lastButton_Some in E as (e & He & _ & ->). simpl.
    by eapply Forall_forall in Hbin.
  - rewrite fold_get0_axes. simpl. change (get0 [] i) with 0.
    pose proof (axisSum_bound i _ Hbin) as Hb.
    unfold JsMap.values in Hb. rewrite length_fmap in Hb.
    unfold JsMap.values. lia.
Qed.

Lemma X9_frame_range_witness :
  Forall (fun b => b = 0 \/ b = 1)
    (buttons (kbFrame (mkTime 0 0) ""
                (Some [("a", mkKbMap 0 (-1) 1 1); ("w", mkKbMap (-1) 0 1 1)]))).
Proof.
  refine (proj1 (X9_frame_range (mkTime 0 0) ""
                   [("a", mkKbMap 0 (-1) 1 1); ("w", mkKbMap (-1) 0 1 1)] _)).
  repeat constructor; by right.
Defined.

(** * Further properties of the panel *)

Lemma effKeyboard_Some now p f :
  effKeyboard now p = Some f <->
  dataSource (config p) = KeyboardSource /\ kbEnabled p = true /\
  f = kbFrame now (publishFrameId (config p)) (trackedKeys p).
Proof.
  unfold effKeyboard.
  destruct (DataSource_eqb (dataSource (config p)) KeyboardSource) eqn:E; simpl.
  - apply DataSource_eqb_eq in E. destruct (kbEnabled p); simpl.
    + split; [intros [= <-]; done | intros (_ & _ & ->); done].
    + split; [done | intros (_ & ? & _); done].
  - split; [done|]. intros (H & _). rewrite H in E. done.
Qed.

Lemma effPublish_spec p :
  effPublish p =
  if publishMode (config p) && truthy (pubTopic p)
     && bool_decide (pubTopic p = Some (pubJoyTopic (config p)))
  then [Publish (pubJoyTopic (config p)) (joy p)] else [].
Proof.
  unfold effPublish. destruct (publishMode (config p)); simpl; [|done].
  destruct (pubTopic p) as [t|]; [|done].
  destruct (truthy (Some t)); simpl; [|done].
  destruct (String.eqb_spec t (pubJoyTopic (config p))) as [->|Hne].
  - by rewrite bool_decide_eq_true_2.
  - rewrite bool_decide_eq_false_2; [done|]. by intros [= ?].
Qed.

(** The frame path of a step that sets the frame in its handler: the
    handler's frame stays, and it is published once when publishing is
    on. *)
Lemma step_handler_joy now p j :
  commit now false (config p) (joySet (Some j)) (setJoy (Some j) p) =
  (setJoy (Some j) p, effPublish (setJoy (Some j) p)).
Proof.
  change (config p) with (config (setJoy (Some j) p)) at 1.
  rewrite commit_same_config. simpl. by rewrite app_nil_r.
Qed.

Lemma gamepadJoy_on now c gp :
  dataSource c = GamepadSource -> gamepadId c = index gp ->
  gamepadJoy now c gp =
  Some {| header := {| frame_id := publishFrameId c; stamp := now |};
          axes := (fun a => - a) <$> gp_axes gp;
          buttons := (fun pressed : bool => if pressed then 1 else 0)
                       <$> gp_buttons gp |}.
Proof. intros Hs Hi. unfold gamepadJoy. by rewrite Hs, Hi, Z.eqb_refl. Qed.

Lemma interactiveJoyOf_on now c j :
  dataSource c = InteractiveSource ->
  interactiveJoyOf now c j =
  Some {| header := {| frame_id := publishFrameId c; stamp := now |};
          axes := axes j; buttons := buttons j |}.
Proof. intros Hs. unfold interactiveJoyOf. by rewrite Hs. Qed.

(** X10: a gamepad update on the gamepad source, from the configured
    gamepad, makes a frame with the clock and the configured frame id,
    each axis negated and each button turned into 0 or 1: the arrays keep
    the lengths of the gamepad's, negating the axes again gives the
    gamepad's values back, and a button cell is 1 exactly when the button
    is pressed. *)
Theorem X10_gamepad_frame (now : Time) (p : Panel) (gp : Gamepad) :
  dataSource (config p) = GamepadSource ->
  gamepadId (config p) = index gp ->
  exists f,
    joy (step now (GamepadUpdate gp) p).1 = Some f /\
    header f = {| stamp := now; frame_id := publishFrameId (config p) |} /\
    length (axes f) = length (gp_axes gp) /\
    length (buttons f) = length (gp_buttons gp) /\
    Z.opp <$> axes f = gp_axes gp /\
    (forall i, buttons f !! i = Some 1 <-> gp_buttons gp !! i = Some true) /\
    (forall i, buttons f !! i = Some 0 <-> gp_buttons gp !! i = Some false).
Proof.
  intros Hsrc Hid. unfold step.
  rewrite (gamepadJoy_on now _ gp Hsrc Hid), step_handler_joy.
  simpl. eexists. split; [done|]. simpl.
  split; [done|]. rewrite !length_fmap. split; [done|]. split; [done|].
  split; [|split].
  - rewrite <- list_fmap_compose. rewrite <- (list_fmap_id (gp_axes gp)) at 2.
    apply list_fmap_ext. intros i x _. simpl. lia.
  - intros i. rewrite list_lookup_fmap.
    destruct (gp_buttons gp !! i) as [[]|]; simpl; split; (done || discriminate).
  - intros i. rewrite list_lookup_fmap.
    destruct (gp_buttons gp !! i) as [[]|]; simpl; split; (done || discriminate).
Qed.

Lemma X10_gamepad_frame_witness :
  joy (step (mkTime 4 0) (GamepadUpdate (mkGamepad 0 [1; -1; 0] [true; false]))
         (mkPanel None None None true (Some [])
            (mkConfig "/joy" "/joy" false "pad" GamepadSource 0))).1 =
  Some {| header := {| stamp := mkTime 4 0; frame_id := "pad" |};
          axes := [-1; 1; 0]; buttons := [1; 0] |}.
Proof.
  destruct (X10_gamepad_frame (mkTime 4 0)
              (mkPanel None None None true (Some [])
                 (mkConfig "/joy" "/joy" false "pad" GamepadSource 0))
              (mkGamepad 0 [1; -1; 0] [true; false]) eq_refl eq_refl)
    as (f & Hf & _).
  reflexivity.
Defined.

(** X11: a gamepad update is dropped, leaving the panel as it is and
    making no call, when the source is not the gamepad or when the update
    comes from another gamepad than the configured one. *)
Theorem X11_gamepad_update_dropped (now : Time) (p : Panel) (gp : Gamepad) :
  dataSource (config p) <> GamepadSource \/ gamepadId (config p) <> index gp ->
  step now (GamepadUpdate gp) p = (p, []).
Proof.
  intros H. unfold step.
  assert (gamepadJoy now (config p) gp = None) as ->.
  { unfold gamepadJoy.
    destruct (DataSource_eqb (dataSource (config p)) GamepadSource) eqn:E; [|done].
    apply DataSource_eqb_eq in E. simpl.
    destruct (Z.eqb_spec (gamepadId (config p)) (index gp)); [|done].
    by destruct H. }
  apply commit_idle.
Qed.

Lemma X11_gamepad_update_dropped_witness :
  let p := mkPanel None None None true (Some [])
             (mkConfig "/joy" "/joy" true "" GamepadSource 1) in
  step (mkTime 4 0) (GamepadUpdate (mkGamepad 0 [1] [true])) p = (p, []).
Proof.
  intros p. apply (X11_gamepad_update_dropped (mkTime 4 0) p).
  right. discriminate.
Defined.

(** X12: the interactive control.  On the interactive source its frame
    is taken over with its axes and buttons as they are, stamped with the
    clock and the configured frame id; on every other source it is
    dropped, leaving the panel as it is and making no call. *)
Theorem X12_interactive_frame (now : Time) (p : Panel) (interactiveJoy : Joy) :
  (dataSource (config p) = InteractiveSource ->
   joy (step now (InteractiveChange interactiveJoy) p).1 =
   Some {| header := {| stamp := now; frame_id := publishFrameId (config p) |};
           axes := axes interactiveJoy;
           buttons := buttons interactiveJoy |}) /\
  (dataSource (config p) <> InteractiveSource ->
   step now (InteractiveChange interactiveJoy) p = (p, [])).
Proof.
  unfold step. split.
  - intros Hs. by rewrite (interactiveJoyOf_on now _ _ Hs), step_handler_joy.
  - intros Hne. unfold interactiveJoyOf.
    destruct (DataSource_eqb (dataSource (config p)) InteractiveSource) eqn:E.
    + by apply DataSource_eqb_eq in E.
    + cbn [negb]. apply commit_idle.
Qed.

(** X13: a render that brings no message builds no frame.  When the
    host delivers [undefined] or an empty batch, the [messages] cell takes
    what was delivered; the frame, the key table, the keyboard switch, the
    remembered topic and the configuration stay as they are, and no
    subscribe, unsubscribe, advertise, unadvertise or publish call is
    made. *)
Theorem X13_render_without_messages (now : Time) (p : Panel)
    (currentFrame : option (list Joy)) :
  currentFrame = None \/ currentFrame = Some [] ->
  step now (Render currentFrame) p = (withMessages currentFrame p, []).
Proof.
  intros H. unfold step.
  change (config p) with (config (withMessages currentFrame p)) at 1.
  rewrite commit_same_config. simpl.
  assert (effReplay (withMessages currentFrame p) = None) as ->.
  { unfold effReplay. simpl. by destruct H as [-> | ->]. }
  rewrite Tauto.if_same. simpl. by destruct p.
Qed.

Lemma X13_render_without_messages_witness :
  let p := mkPanel None (Some (mkJoy (mkHeader (mkTime 1 0) "") [1] [0])) None true
             (Some []) (mkConfig "/joy" "/joy" true "" SubJoyTopic 0) in
  step (mkTime 4 0) (Render (Some [])) p = (withMessages (Some []) p, []).
Proof.
  intros p. apply (X13_render_without_messages (mkTime 4 0) p). by right.
Defined.

(** ** Publishing and advertising *)

Lemma truthy_Some_ne t : truthy (Some t) = true -> t ≠ "".
Proof.
  unfold truthy, string_neqb. intros H ->. by rewrite String.eqb_refl in H.
Qed.

Lemma effPublish_elem p t m :
  Publish t m ∈ effPublish p ->
  publishMode (config p) = true /\ t = pubJoyTopic (config p) /\ t ≠ "" /\
  pubTopic p = Some t /\ m = joy p.
Proof.
  rewrite effPublish_spec.
  destruct (publishMode (config p)); simpl; [|by intros ?%elem_of_nil].
  destruct (truthy (pubTopic p)) eqn:Et; simpl; [|by intros ?%elem_of_nil].
  case_bool_decide as Hpt; [|by intros ?%elem_of_nil].
  intros [= -> ->]%list_elem_of_singleton. rewrite Hpt in Et.
  repeat split; [by apply truthy_Some_ne | done].
Qed.

Lemma effSubscribe_elem c call :
  call ∈ effSubscribe c ->
  (call = Subscribe [subJoyTopic c] /\ dataSource c = SubJoyTopic) \/
  (call = UnsubscribeAll /\ dataSource c <> SubJoyTopic).
Proof.
  unfold effSubscribe.
  destruct (DataSource_eqb (dataSource c) SubJoyTopic) eqn:E;
    intros ->%list_elem_of_singleton.
  - left. split; [done | by apply DataSource_eqb_eq].
  - right. split; [done|]. intros H. rewrite H in E. done.
Qed.

Lemma effAdvertise_elem p call :
  call ∈ (effAdvertise p).2 ->
  publishMode (config p) = true /\
  (call = Advertise (pubJoyTopic (config p)) "sensor_msgs/Joy" \/
   exists t, call = Unadvertise t /\ pubTopic p = Some t /\ t ≠ "").
Proof.
  unfold effAdvertise.
  destruct (publishMode (config p)); [|by intros ?%elem_of_nil].
  unfold pubTopicUpdater. cbn [snd]. intros H. split; [done|].
  apply elem_of_app in H as [H|H%list_elem_of_singleton]; [|by left].
  right. destruct (truthy (pubTopic p)) eqn:Et; [|by apply elem_of_nil in H].
  destruct (pubTopic p) as [t|]; [|done].
  apply list_elem_of_singleton in H. exists t. repeat split; try done.
  by apply truthy_Some_ne.
Qed.

(** Every call of a commit comes from one of its effects. *)
Lemma commit_calls_elem now mounting old ch q call :
  call ∈ (commit now mounting old ch q).2 ->
  call ∈ effSubscribe (config q) \/
  call ∈ (effAdvertise q).2 \/
  call ∈ effPublish q \/
  call ∈ effPublish (commit now mounting old ch q).1.
Proof.
  unfold commit. cbn [fst snd]. rewrite !elem_of_app.
  intros [H|[H|[H|H]]].
  - left. destruct (_ || _); [done | by apply elem_of_nil in H].
  - right; right; left. destruct (_ || _); [done | by apply elem_of_nil in H].
  - right; left. destruct (_ || _); [done | by apply elem_of_nil in H].
  - right; right; right. destruct (_ || _); [done | by apply elem_of_nil in H].
Qed.

(** Every step is a commit on the cells its handler wrote. *)
Lemma step_is_commit now ev p :
  exists ch q,
    step now ev p = commit now false (config p) ch q /\
    pubTopic q = pubTopic p /\
    config q = match ev with ConfigChange c => c | _ => config p end.
Proof.
  destruct ev; unfold step;
    try destruct (handleKeyDown key (trackedKeys p));
    try destruct (handleKeyUp key (trackedKeys p));
    eexists _, _; (split; [reflexivity|]); try done.
  - by destruct (gamepadJoy now (config p) gp).
  - by destruct (interactiveJoyOf now (config p) interactiveJoy).
Qed.

(** X14: what is published.  Every publish call of a step is on the
    configured publish topic, which is then not the empty string, and is
    made with publish mode on; nothing is ever published while publish
    mode is off. *)
Theorem X14_publish_discipline (now : Time) (ev : Event) (p : Panel)
    (t : string) (m : option Joy) :
  Publish t m ∈ (step now ev p).2 ->
  let p' := (step now ev p).1 in
  publishMode (config p') = true /\ t = pubJoyTopic (config p') /\ t ≠ "".
Proof.
  destruct (step_is_commit now ev p) as (ch & q & -> & _ & _).
  intros H p'. unfold p'. rewrite commit_config.
  apply commit_calls_elem in H as [H|[H|[H|H]]].
  - by apply effSubscribe_elem in H as [[? _]|[? _]].
  - apply effAdvertise_elem in H as (_ & [?|(? & ? & _)]); done.
  - by apply effPublish_elem in H as (? & ? & ? & _).
  - apply effPublish_elem in H as (? & ? & ? & _).
    by rewrite commit_config in *.
Qed.

Lemma X14_publish_discipline_witness :
  let p := mkPanel None None (Some "/a") true (Some [("w", mkKbMap 0 (-1) 1 0)])
             (mkConfig "/joy" "/a" true "" KeyboardSource 0) in
  publishMode (config (step (mkTime 1 0) (KeyDown "w") p).1) = true /\
  "/a" = pubJoyTopic (config (step (mkTime 1 0) (KeyDown "w") p).1) /\
  "/a" ≠ "".
Proof.
  intros p.
  apply (X14_publish_discipline (mkTime 1 0) (KeyDown "w") p "/a"
           (Some (kbFrame (mkTime 1 0) "" (Some [("w", mkKbMap 0 (-1) 1 1)])))).
  vm_compute. left.
Defined.

(** X15: what is advertised.  Every advertise call of a step names the
    configured publish topic with the schema of joystick messages and is
    made with publish mode on; every unadvertise call names the topic
    remembered from the last advertisement, not the empty string, and is
    made only with publish mode on, in the effect that advertises right
    after. *)
Theorem X15_advertise_discipline (now : Time) (ev : Event) (p : Panel)
    (call : Call) :
  call ∈ advCalls (step now ev p).2 ->
  let p' := (step now ev p).1 in
  publishMode (config p') = true /\
  (call = Advertise (pubJoyTopic (config p')) "sensor_msgs/Joy" \/
   exists t, call = Unadvertise t /\ pubTopic p = Some t /\ t ≠ "").
Proof.
  destruct (step_is_commit now ev p) as (ch & q & -> & Hpt & _).
  intros H p'. unfold p'. rewrite commit_config.
  unfold advCalls in H. apply list_elem_of_filter in H as [Hadv H].
  apply commit_calls_elem in H as [H|[H|[H|H]]].
  - by apply effSubscribe_elem in H as [[-> _]|[-> _]].
  - rewrite <- Hpt. by apply effAdvertise_elem.
  - assert (call ∈ advCalls (effPublish q)) as H'
      by (by apply list_elem_of_filter).
    rewrite advCalls_effPublish in H'. by apply elem_of_nil in H'.
  - assert (call ∈ advCalls (effPublish (commit now false (config p) ch q).1)) as H'
      by (by apply list_elem_of_filter).
    rewrite advCalls_effPublish in H'. by apply elem_of_nil in H'.
Qed.

Lemma X15_advertise_discipline_witness :
  let p := mkPanel None None (Some "/a") true (Some [])
             (mkConfig "/joy" "/a" true "" KeyboardSource 0) in
  let c' := mkConfig "/joy" "/b" true "" KeyboardSource 0 in
  publishMode (config (step (mkTime 1 0) (ConfigChange c') p).1) = true.
Proof.
  intros p c'.
  refine (proj1 (X15_advertise_discipline (mkTime 1 0) (ConfigChange c') p
                   (Unadvertise "/a") _)).
  vm_compute. left.
Defined.

Lemma filter_if_nil {A} (P : A -> Prop) `{forall x, Decision (P x)}
    (b : bool) (l : list A) :
  filter P (if b then l else []) = if b then filter P l else [].
Proof. by destruct b. Qed.

Lemma publishCalls_effSubscribe c : publishCalls (effSubscribe c) = [].
Proof. unfold effSubscribe. by destruct (DataSource_eqb _ _). Qed.

Lemma publishCalls_effAdvertise p : publishCalls (effAdvertise p).2 = [].
Proof.
  unfold effAdvertise, pubTopicUpdater. destruct (publishMode (config p)); [|done].
  cbn [snd]. destruct (truthy (pubTopic p)); [|done]. by destruct (pubTopic p).
Qed.

Lemma publishCalls_effPublish p : publishCalls (effPublish p) = effPublish p.
Proof. rewrite effPublish_spec. by destruct (_ && _). Qed.

Lemma subCalls_effSubscribe c : subCalls (effSubscribe c) = effSubscribe c.
Proof. unfold effSubscribe. by destruct (DataSource_eqb _ _). Qed.

Lemma subCalls_effAdvertise p : subCalls (effAdvertise p).2 = [].
Proof.
  unfold effAdvertise, pubTopicUpdater. destruct (publishMode (config p)); [|done].
  cbn [snd]. destruct (truthy (pubTopic p)); [|done]. by destruct (pubTopic p).
Qed.

Lemma subCalls_effPublish p : subCalls (effPublish p) = [].
Proof. rewrite effPublish_spec. by destruct (_ && _). Qed.

(** Only the subscribe effect subscribes, only the publish effect
    publishes. *)
Lemma subCalls_commit now mounting old ch p :
  subCalls (commit now mounting old ch p).2 =
  if mounting || depsSubscribe old (config p) then effSubscribe (config p) else [].
Proof.
  unfold commit, subCalls. cbn [snd]. rewrite !filter_app, !filter_if_nil.
  fold (subCalls (effSubscribe (config p))). rewrite subCalls_effSubscribe.
  fold (subCalls (effPublish p)). rewrite subCalls_effPublish.
  match goal with
  | |- context [filter _ (effPublish ?q)] =>
      fold (subCalls (effPublish q)); rewrite (subCalls_effPublish q)
  end.
  rewrite !Tauto.if_same, !app_nil_r.
  destruct (mounting || depsAdvertise old (config p)).
  - fold (subCalls (effAdvertise p).2). by rewrite subCalls_effAdvertise, app_nil_r.
  - by rewrite app_nil_r.
Qed.

Lemma effPublish_off p : publishMode (config p) = false -> effPublish p = [].
Proof. intros H. unfold effPublish. by rewrite H. Qed.

Lemma commit_calls_off now mounting old ch p :
  publishMode (config p) = false ->
  (commit now mounting old ch p).2 =
  if mounting || depsSubscribe old (config p) then effSubscribe (config p) else [].
Proof.
  intros Hoff. unfold commit. cbn [snd].
  rewrite (effPublish_off p Hoff).
  rewrite effPublish_off by (simpl; by destruct (lastJoy _ _)).
  unfold effAdvertise. rewrite Hoff, !Tauto.if_same. simpl.
  by rewrite !app_nil_r.
Qed.

(** X16: turning publish mode off.  A change of configuration that
    leaves publish mode off makes no advertise, unadvertise or publish
    call, and the topic remembered from the last advertisement is kept:
    the panel never unadvertises when publishing is switched off. *)
Theorem X16_publish_off_keeps_advertisement (now : Time) (p : Panel)
    (c' : Config) :
  publishMode c' = false ->
  advCalls (step now (ConfigChange c') p).2 = [] /\
  publishCalls (step now (ConfigChange c') p).2 = [] /\
  pubTopic (step now (ConfigChange c') p).1 = pubTopic p.
Proof.
  intros Hoff. unfold step.
  rewrite commit_calls_off by done. rewrite commit_pubTopic.
  unfold effAdvertise. simpl. rewrite Hoff, Tauto.if_same. simpl.
  split; [|split; [|done]].
  - destruct (depsSubscribe _ _); [apply advCalls_effSubscribe | done].
  - destruct (depsSubscribe _ _); [apply publishCalls_effSubscribe | done].
Qed.

Lemma X16_publish_off_keeps_advertisement_witness :
  let p := mkPanel None None (Some "/a") true (Some [])
             (mkConfig "/joy" "/a" true "" KeyboardSource 0) in
  let c' := mkConfig "/joy" "/a" false "" KeyboardSource 0 in
  pubTopic (step (mkTime 1 0) (ConfigChange c') p).1 = Some "/a".
Proof.
  intros p c'.
  by destruct (X16_publish_off_keeps_advertisement (mkTime 1 0) p c' eq_refl)
    as (_ & _ & ->).
Defined.

(** X17: turning publish mode on.  When no topic is remembered, or the
    empty one, the new topic is advertised and nothing is unadvertised;
    when a topic is remembered from an earlier advertisement, it is first
    unadvertised, also when it is the very topic advertised next. *)
Theorem X17_publish_on (now : Time) (p : Panel) (c' : Config) :
  publishMode (config p) = false ->
  publishMode c' = true ->
  (pubTopic p = None \/ pubTopic p = Some "" ->
   advCalls (step now (ConfigChange c') p).2 =
     [Advertise (pubJoyTopic c') "sensor_msgs/Joy"]) /\
  (forall a, pubTopic p = Some a -> a ≠ "" ->
   advCalls (step now (ConfigChange c') p).2 =
     [Unadvertise a; Advertise (pubJoyTopic c') "sensor_msgs/Joy"]) /\
  pubTopic (step now (ConfigChange c') p).1 = Some (pubJoyTopic c').
Proof.
  intros Hoff Hon. unfold step. rewrite advCalls_commit, commit_pubTopic.
  unfold depsAdvertise, effAdvertise, pubTopicUpdater. simpl.
  rewrite Hoff, Hon. simpl. rewrite orb_true_r. simpl.
  split; [|split; [|done]].
  - by intros [-> | ->].
  - intros a -> Hne. simpl. by rewrite (string_neqb_ne a "" Hne).
Qed.

Lemma X17_publish_on_witness :
  let p := mkPanel None None (Some "/a") true (Some [])
             (mkConfig "/joy" "/a" false "" KeyboardSource 0) in
  let c' := mkConfig "/joy" "/a" true "" KeyboardSource 0 in
  advCalls (step (mkTime 1 0) (ConfigChange c') p).2 =
    [Unadvertise "/a"; Advertise "/a" "sensor_msgs/Joy"].
Proof.
  intros p c'.
  destruct (X17_publish_on (mkTime 1 0) p c' eq_refl eq_refl) as (_ & H & _).
  by apply (H "/a").
Defined.

(** X18: subscriptions follow the source.  A change of configuration
    that lands on the subscribed-topic source, from another source or
    from another topic, subscribes to the configured topic alone; one
    that lands on any other source, from a different source or with a
    different topic, unsubscribes from everything; one that keeps source
    and topic makes no subscription call. *)
Theorem X18_subscriptions_follow_source (now : Time) (p : Panel) (c' : Config) :
  let calls := subCalls (step now (ConfigChange c') p).2 in
  let moved := dataSource (config p) <> dataSource c' \/
               subJoyTopic (config p) <> subJoyTopic c' in
  (moved -> dataSource c' = SubJoyTopic ->
   calls = [Subscribe [subJoyTopic c']]) /\
  (moved -> dataSource c' <> SubJoyTopic -> calls = [UnsubscribeAll]) /\
  (~ moved -> calls = []).
Proof.
  intros calls moved. unfold calls, step. rewrite subCalls_commit. simpl.
  assert (depsSubscribe (config p) c' = true <-> moved) as Hdeps.
  { unfold depsSubscribe, moved, string_neqb.
    rewrite orb_true_iff, !negb_true_iff. split.
    - intros [H|H]; [right | left]; intros E; rewrite E in H.
      + by rewrite String.eqb_refl in H.
      + by rewrite DataSource_eqb_refl in H.
    - intros [H|H]; [right | left].
      + destruct (DataSource_eqb _ _) eqn:E; [|done]. by apply DataSource_eqb_eq in E.
      + destruct (String.eqb_spec (subJoyTopic (config p)) (subJoyTopic c')); done. }
  split; [|split].
  - intros Hm Hs. apply Hdeps in Hm as ->. unfold effSubscribe. by rewrite Hs.
  - intros Hm Hs. apply Hdeps in Hm as ->. unfold effSubscribe.
    destruct (DataSource_eqb (dataSource c') SubJoyTopic) eqn:E; [|done].
    by apply DataSource_eqb_eq in E.
  - intros Hm. destruct (depsSubscribe (config p) c') eqn:E; [|done].
    exfalso. by apply Hm, Hdeps.
Qed.

(** X19: only a change of configuration touches subscriptions and
    advertisements: no render, key, gamepad, switch or interactive event
    makes a subscribe, unsubscribe, advertise or unadvertise call. *)
Theorem X19_other_events_keep_topics (now : Time) (ev : Event) (p : Panel) :
  match ev with
  | ConfigChange _ => True
  | _ => subCalls (step now ev p).2 = [] /\ advCalls (step now ev p).2 = [] /\
         pubTopic (step now ev p).1 = pubTopic p
  end.
Proof.
  destruct (deps_same_config (config p) unchanged) as (Hs & _ & _ & Ha & _).
  destruct (step_is_commit now ev p) as (ch & q & E & Hpt & Hc).
  destruct ev; try done; rewrite E, subCalls_commit, advCalls_commit,
    commit_pubTopic, Hc, Hs, Ha; simpl; done.
Qed.

(** ** Frames on the keyboard source and across changes of configuration *)

Lemma commit_key_frame now p t' :
  dataSource (config p) = KeyboardSource ->
  kbEnabled p = true ->
  commit now false (config p) (mkChanged false false false false true)
    (withTrackedKeys (Some t') p) =
  let q := setJoy (Some (kbFrame now (publishFrameId (config p)) (Some t')))
             (withTrackedKeys (Some t') p) in
  (q, effPublish q).
Proof.
  intros Hsrc Hon.
  change (config p) with (config (withTrackedKeys (Some t') p)) at 1.
  rewrite commit_same_config. simpl.
  unfold effKeyboard, setPubTopic. simpl. rewrite Hsrc, Hon. simpl.
  by rewrite Hon.
Qed.

(** X20: a key event on the keyboard source.  In a state the panel can
    reach, with the keyboard as source and enabled, a key-down or key-up
    on a tracked key builds a frame from the table as the event leaves
    it, stamped with the clock and the configured frame id; with publish
    mode on and a topic that is not empty, that frame is published
    exactly once on the configured topic, and otherwise no call is made. *)
Theorem X20_key_event_frame (kbmapping1 : list (string * KbDef)) (now : Time)
    (p : Panel) (key : string) (t : JsMap.t KbMap) (k : KbMap) :
  reachable kbmapping1 p ->
  dataSource (config p) = KeyboardSource ->
  kbEnabled p = true ->
  trackedKeys p = Some t ->
  JsMap.get key t = Some k ->
  let f v := kbFrame now (publishFrameId (config p))
               (Some (JsMap.set key (setValue v k) t)) in
  let pub v := if publishMode (config p) && string_neqb (pubJoyTopic (config p)) ""
               then [Publish (pubJoyTopic (config p)) (Some (f v))] else [] in
  joy (step now (KeyDown key) p).1 = Some (f 1) /\
  (step now (KeyDown key) p).2 = pub 1 /\
  joy (step now (KeyUp key) p).1 = Some (f 0) /\
  (step now (KeyUp key) p).2 = pub 0.
Proof.
  intros Hr Hsrc Hon Ht Hk f pub.
  assert (forall v,
            commit now false (config p) (mkChanged false false false false true)
              (withTrackedKeys (Some (JsMap.set key (setValue v k) t)) p) =
            (setJoy (Some (f v))
               (withTrackedKeys (Some (JsMap.set key (setValue v k) t)) p),
             pub v)) as Hcommit.
  { intros v. rewrite commit_key_frame by done. cbn zeta. f_equal.
    rewrite effPublish_spec. unfold pub. simpl.
    destruct (publishMode (config p)) eqn:Hm; [|done].
    rewrite (reachable_pubTopic _ _ Hr Hm). simpl.
    rewrite bool_decide_eq_true_2 by done. by rewrite andb_true_r. }
  rewrite step_KeyDown, step_KeyUp. unfold handleKeyDown, handleKeyUp.
  rewrite Ht, !(keyUpdater_tracked _ _ _ _ Hk). cbn [fst snd].
  rewrite !Hcommit. done.
Qed.

Lemma X20_key_event_frame_witness :
  let cfg := mkPartialConfig None (Some "/cmd") (Some true) None
               (Some KeyboardSource) None in
  exists p calls,
    mount (mkTime 0 0) [("w", mkKbDef (-1) 0 "+")] cfg = Normal (p, calls) /\
    (step (mkTime 1 0) (KeyDown "w") p).2 =
      [Publish "/cmd"
         (Some {| header := {| stamp := mkTime 1 0; frame_id := "" |};
                  axes := [1]; buttons := [] |})].
Proof.
  intros cfg. eexists _, _. split; [reflexivity|].
  match goal with
  | |- (step _ _ ?q).2 = _ =>
      assert (reachable [("w", mkKbDef (-1) 0 "+")] q) as Hr
        by (eapply (reach_mount _ (mkTime 0 0) cfg); reflexivity);
      destruct (X20_key_event_frame [("w", mkKbDef (-1) 0 "+")] (mkTime 1 0) q "w"
                  [("w", mkKbMap (-1) 0 1 0)] (mkKbMap (-1) 0 1 0)
                  Hr eq_refl eq_refl eq_refl eq_refl)
        as (_ & H & _)
  end.
  exact H.
Defined.

(** X21: a change of the configured frame id re-stamps at once.  When
    the frame id changes, on the keyboard source with the keyboard
    enabled a frame is built from the key table under the new id; in every
    other case, if a replayed message is held, the last one is re-stamped
    with the new id and becomes the frame, whatever the source. *)
Theorem X21_frame_id_change (now : Time) (p : Panel) (c' : Config)
    (earlier : list Joy) (m : Joy) :
  publishFrameId (config p) <> publishFrameId c' ->
  (dataSource c' = KeyboardSource -> kbEnabled p = true ->
   joy (step now (ConfigChange c') p).1 =
   Some (kbFrame now (publishFrameId c') (trackedKeys p))) /\
  (dataSource c' <> KeyboardSource \/ kbEnabled p = false ->
   messages p = Some (earlier ++ [m]) ->
   joy (step now (ConfigChange c') p).1 = Some (restamped (publishFrameId c') m)).
Proof.
  intros Hfid. unfold step. rewrite commit_joy. simpl.
  unfold depsReplay, depsKeyboard. rewrite (string_neqb_ne _ _ Hfid).
  rewrite !orb_true_r. simpl. split.
  - intros Hsrc Hon. unfold effKeyboard. simpl. by rewrite Hsrc, Hon.
  - intros Hoff Hmsg.
    assert (effKeyboard now (withConfig c' p) = None) as ->.
    { unfold effKeyboard. simpl.
      destruct (DataSource_eqb (dataSource c') KeyboardSource) eqn:E; [|done].
      apply DataSource_eqb_eq in E. destruct Hoff as [Hoff | ->]; done. }
    unfold effReplay. simpl. by rewrite Hmsg, last_snoc.
Qed.

Lemma X21_frame_id_change_witness :
  let m := mkJoy (mkHeader (mkTime 5 0) "X") [1] [0; 1] in
  let p := mkPanel (Some [m]) None None true (Some [])
             (mkConfig "/joy" "/joy" false "Y" GamepadSource 0) in
  joy (step (mkTime 9 0) (ConfigChange (mkConfig "/joy" "/joy" false "Z" GamepadSource 0)) p).1
  = Some (mkJoy (mkHeader (mkTime 5 0) "Z") [1] [0; 1]).
Proof.
  intros m p.
  destruct (X21_frame_id_change (mkTime 9 0) p
              (mkConfig "/joy" "/joy" false "Z" GamepadSource 0) [] m) as [_ H].
  - discriminate.
  - apply H; [left; discriminate | reflexivity].
Defined.

(** X22: a change of configuration that keeps the frame id builds no
    frame unless it lands on the enabled keyboard from another source:
    after a switch to the gamepad, the interactive control or the
    subscribed topic, the panel keeps showing the last frame of the old
    source until the new one delivers. *)
Theorem X22_source_switch_keeps_frame (now : Time) (p : Panel) (c' : Config) :
  publishFrameId (config p) = publishFrameId c' ->
  dataSource c' <> KeyboardSource \/ kbEnabled p = false \/
  dataSource (config p) = dataSource c' ->
  joy (step now (ConfigChange c') p).1 = joy p.
Proof.
  intros Hfid Hcase. unfold step. rewrite commit_joy. simpl.
  unfold depsReplay, depsKeyboard. rewrite Hfid, string_neqb_refl. simpl.
  destruct (DataSource_eqb (dataSource (config p)) (dataSource c')) eqn:Es;
    simpl; [done|].
  unfold effKeyboard. simpl.
  destruct (DataSource_eqb (dataSource c') KeyboardSource) eqn:E; simpl; [|done].
  apply DataSource_eqb_eq in E.
  destruct (kbEnabled p) eqn:Ek; simpl; [|done].
  exfalso. destruct Hcase as [H|[H|H]]; [done | done |].
  rewrite H, DataSource_eqb_refl in Es. done.
Qed.

Lemma X22_source_switch_keeps_frame_witness :
  let f := mkJoy (mkHeader (mkTime 1 0) "") [] [1] in
  let p := mkPanel None (Some f) None true (Some [("w", mkKbMap 0 (-1) 1 1)])
             (mkConfig "/joy" "/joy" false "" KeyboardSource 0) in
  joy (step (mkTime 2 0)
         (ConfigChange (mkConfig "/joy" "/joy" false "" GamepadSource 0)) p).1
  = Some f.
Proof.
  intros f p.
  apply (X22_source_switch_keeps_frame (mkTime 2 0) p
           (mkConfig "/joy" "/joy" false "" GamepadSource 0)).
  - reflexivity.
  - left. discriminate.
Defined.

(** X23: equal values rebuild nothing.  Setting the keyboard switch to
    the value it has, or the configuration to fields equal to those in
    force, leaves the frame, the key table, the messages, the keyboard
    switch, the remembered topic and the configuration as they are and
    makes no subscribe, unsubscribe, advertise, unadvertise or publish
    call: the effects on topics and frames depend on the fields of the
    configuration, not on the configuration object. *)
Theorem X23_equal_values_rebuild_nothing (now : Time) (p : Panel) :
  step now (KbSwitch (kbEnabled p)) p = (p, []) /\
  step now (ConfigChange (config p)) p = (p, []).
Proof.
  unfold step. split.
  - rewrite Bool.eqb_reflx. simpl.
    assert (withKbEnabled (kbEnabled p) p = p) as -> by by destruct p.
    apply commit_idle.
  - assert (withConfig (config p) p = p) as -> by by destruct p.
    apply commit_idle.
Qed.

(** ** Mounting, and one publish per frame *)







(** X26: the topic the panel remembers.  In every state the panel can
    reach, while publish mode is on the remembered topic is the configured
    publish topic, so the guard of the publish effect holds whenever the
    topic is not the empty string; and the key table has unique keys. *)
Theorem X26_remembered_topic (kbmapping1 : list (string * KbDef)) (p : Panel) :
  reachable kbmapping1 p ->
  (publishMode (config p) = true ->
   pubTopic p = Some (pubJoyTopic (config p)) /\
   (pubJoyTopic (config p) <> "" ->
    effPublish p = [Publish (pubJoyTopic (config p)) (joy p)])) /\
  (exists t, trackedKeys p = Some t /\ NoDup (JsMap.keys t)).
Proof.
  intros Hr. split.
  - intros Hm. pose proof (reachable_pubTopic _ _ Hr Hm) as Hpt.
    split; [done|]. intros Hne.
    rewrite effPublish_spec, Hm, Hpt. simpl.
    rewrite (string_neqb_ne _ _ Hne), bool_decide_eq_true_2; done.
  - destruct (reachable_trackedKeys _ _ Hr) as (t & Ht & _ & Hn). by exists t.
Qed.

Lemma X26_remembered_topic_witness :
  let cfg := mkPartialConfig None (Some "/a") (Some true) None None None in
  exists p,
    reachable [] p /\
    (publishMode (config p) = true -> pubTopic p = Some "/a").
Proof.
  intros cfg. eexists. split.
  - eapply (reach_mount [] (mkTime 0 0) cfg). reflexivity.
  - intros Hm.
    match goal with
    | |- pubTopic ?q = _ =>
        assert (reachable [] q) as Hr
          by (eapply (reach_mount [] (mkTime 0 0) cfg); reflexivity);
        destruct (X26_remembered_topic [] q Hr) as (H & _)
    end.
    by destruct (H Hm) as [-> _].
Defined.
